(** * kiwi.datatypes: the converter registry, the converters and
      [format_price], embedded from [src/kiwi/datatypes.py].

    Python values are modelled by the inductive [pyval]; an [int] and a
    [long] both carry an integer [Z], the [int] one that fits the machine
    word of the host ([sys.maxint]), see [integer_object]; [float] is an
    IEEE binary64 value
    ([spec_float], precision 53, exponent bound 1024); [str] is [string].
    A call either returns a value, raises an exception, or (for the one
    loop of the module that need not terminate) does not return before the
    fuel given to it is used up: see [outcome]. *)

From Stdlib Require Import ZArith Lia List Bool Ascii String.
From Stdlib Require Import DecimalString DecimalN DecimalPos DecimalFacts.
From Stdlib Require Import Floats.SpecFloat Floats.PrimFloat Floats.FloatOps.
From stdpp Require Import base option countable gmap.

Import ListNotations.
Local Open Scope string_scope.
Local Open Scope Z_scope.

(* Decimal float literals such as 1234.56 denote the nearest binary64. *)
Set Warnings "-inexact-float".

(** ** Python values, types and exceptions *)

(** The classes: those the module registers converters for, the other
    builtin ones a caller can meet ([long], [NoneType], [type]), and any
    class defined elsewhere (deriving from [object] alone), which has a
    name of its own choosing and an identity.  Two distinct classes can
    have the same [__name__]. *)
Inductive pytype : Type :=
  | TStr | TInt | TLong | TBool | TFloat | TDate | TObject | TNoneType
  | TType
  | TClass (name : string) (id : positive).

Inductive pyval : Type :=
  | VStr (s : string)
  | VInt (z : Z)              (* an [int]: a machine word *)
  | VLong (z : Z)             (* a [long]: unbounded *)
  | VBool (b : bool)
  | VFloat (f : spec_float)
  | VDate (year month day : Z)
  | VNone
  | VType (t : pytype)        (* a class object, such as the builtin [str] *)
  | VObject (id : positive).  (* a plain instance of [object] *)

(** [type(v)] *)
Definition type_of (v : pyval) : pytype :=
  match v with
  | VStr _ => TStr
  | VInt _ => TInt
  | VLong _ => TLong
  | VBool _ => TBool
  | VFloat _ => TFloat
  | VDate _ _ _ => TDate
  | VNone => TNoneType
  | VType _ => TType
  | VObject _ => TObject
  end.

Definition pytype_eqb (a b : pytype) : bool :=
  match a, b with
  | TStr, TStr | TInt, TInt | TLong, TLong | TBool, TBool
  | TFloat, TFloat | TDate, TDate | TObject, TObject
  | TNoneType, TNoneType | TType, TType => true
  | TClass n i, TClass m j => String.eqb n m && Pos.eqb i j
  | _, _ => false
  end.

(** [issubclass(a, b)]: every class derives from [object], [bool] derives
    from [int]; [long] does not. *)
Definition issubclass (a b : pytype) : bool :=
  match a, b with
  | _, TObject => true
  | TBool, TInt => true
  | _, _ => pytype_eqb a b
  end.

(** [isinstance(v, t)] *)
Definition isinstance (v : pyval) (t : pytype) : bool :=
  issubclass (type_of v) t.

Inductive exn : Type :=
  | ValidationError (msg : string)
  (* the assertion of [ConverterRegistry.as_string]; its message is built
     from the three values kept here: data, c.type, type(data) *)
  | AssertionError (data : pyval) (expected actual : pytype)
  | KeyError
  | ValueError
  | TypeError
  | AttributeError
  | OverflowError.

(** What a call does: it returns, it raises, or the fuel of a loop ran
    out before the loop ended. *)
Inductive outcome (A : Type) : Type :=
  | Ok (a : A)
  | Raise (e : exn)
  | OutOfFuel.
Arguments Ok {A} a.
Arguments Raise {A} e.
Arguments OutOfFuel {A}.

Definition bind {A B} (m : outcome A) (k : A -> outcome B) : outcome B :=
  match m with
  | Ok a => k a
  | Raise e => Raise e
  | OutOfFuel => OutOfFuel
  end.

Notation "'do' x <- m ; k" := (bind m (fun x => k))
  (at level 10, x name, m at level 100, k at level 200).

(** [try: m  except ValueError: raise e] *)
Definition except_ValueError {A} (m : outcome A) (e : exn) : outcome A :=
  match m with
  | Raise ValueError => Raise e
  | _ => m
  end.

Definition is_validation_error {A} (r : outcome A) : bool :=
  match r with
  | Raise (ValidationError _) => true
  | _ => false
  end.

(** ** Python strings *)

Module Py.

Definition len (s : string) : Z := Z.of_nat (String.length s).

(** The double quote character. *)
Definition dquote : string := String (ascii_of_nat 34) EmptyString.

Fixpoint drop (n : nat) (s : string) : string :=
  match n, s with
  | O, _ => s
  | S n', String _ s' => drop n' s'
  | S _, EmptyString => EmptyString
  end.

Fixpoint take (n : nat) (s : string) : string :=
  match n, s with
  | O, _ => EmptyString
  | S n', String c s' => String c (take n' s')
  | S _, EmptyString => EmptyString
  end.

(** A slice bound [i] of a sequence of length [n]: negative bounds count
    from the end, and the bound is clamped to [0 .. n]. *)
Definition slice_bound (n i : Z) : Z :=
  if i <? 0 then Z.max 0 (i + n) else Z.min i n.

(** [s[i:]] *)
Definition slice_from (s : string) (i : Z) : string :=
  drop (Z.to_nat (slice_bound (len s) i)) s.

(** [s[:i]] *)
Definition slice_to (s : string) (i : Z) : string :=
  take (Z.to_nat (slice_bound (len s) i)) s.

(** [s.startswith(sub)] *)
Definition startswith (s sub : string) : bool := String.prefix sub s.

(** [s.count(sub)]: the occurrences of [sub] are counted from the left
    and do not overlap; after a match the scan skips the rest of it. *)
Fixpoint count_skip (skip : nat) (sub s : string) : Z :=
  match s with
  | EmptyString => 0
  | String _ s' =>
      match skip with
      | S k => count_skip k sub s'
      | O =>
          if startswith s sub
          then 1 + count_skip (String.length sub - 1) sub s'
          else count_skip 0 sub s'
      end
  end.

Definition count (s sub : string) : Z :=
  match sub with
  | EmptyString => len s + 1
  | _ => count_skip 0 sub s
  end.

(** The first index [>= pos] at which [sub] occurs, [s] being the text
    from index [pos] on; [-1] when there is none. *)
Fixpoint find_at (sub s : string) (pos : Z) : Z :=
  if startswith s sub then pos
  else match s with
       | EmptyString => -1
       | String _ s' => find_at sub s' (pos + 1)
       end.

(** [s.find(sub, start)] *)
Definition find (s sub : string) (start : Z) : Z :=
  let start := if start <? 0 then Z.max 0 (start + len s) else start in
  if len s <? start then -1
  else find_at sub (drop (Z.to_nat start) s) start.

(** [s.index(sub)] *)
Definition index (s sub : string) : outcome Z :=
  let i := find s sub 0 in
  if i =? -1 then Raise ValueError else Ok i.

(** [s.replace(old, new)] *)
Fixpoint replace_skip (skip : nat) (old new s : string) : string :=
  match s with
  | EmptyString => EmptyString
  | String c s' =>
      match skip with
      | S k => replace_skip k old new s'
      | O =>
          if startswith s old
          then new ++ replace_skip (String.length old - 1) old new s'
          else String c (replace_skip 0 old new s')
      end
  end.

Fixpoint interleave (new s : string) : string :=
  match s with
  | EmptyString => new
  | String c s' => new ++ String c (interleave new s')
  end.

Definition replace (s old new : string) : string :=
  match old with
  | EmptyString => interleave new s
  | _ => replace_skip 0 old new s
  end.

(** [sep.join(parts)] *)
Definition join (sep : string) (parts : list string) : string :=
  String.concat sep parts.

Definition upper_char (c : ascii) : ascii :=
  let n := nat_of_ascii c in
  if ((97 <=? n) && (n <=? 122))%nat then ascii_of_nat (n - 32) else c.

(** [s.upper()] *)
Fixpoint upper (s : string) : string :=
  match s with
  | EmptyString => EmptyString
  | String c s' => String (upper_char c) (upper s')
  end.

Definition is_space (c : ascii) : bool :=
  let n := nat_of_ascii c in
  ((n =? 32) || ((9 <=? n) && (n <=? 13)))%nat.

Definition is_digit (c : ascii) : bool :=
  let n := nat_of_ascii c in ((48 <=? n) && (n <=? 57))%nat.

Definition digit_val (c : ascii) : N := N.of_nat (nat_of_ascii c - 48).

Fixpoint lstrip (s : string) : string :=
  match s with
  | String c s' => if is_space c then lstrip s' else s
  | EmptyString => EmptyString
  end.

(** [s.strip()]: blanks are dropped at both ends. *)
Fixpoint rstrip (s : string) : string :=
  match s with
  | EmptyString => EmptyString
  | String c s' =>
      match rstrip s' with
      | EmptyString => if is_space c then EmptyString else String c EmptyString
      | r => String c r
      end
  end.

Definition strip (s : string) : string := rstrip (lstrip s).

(** The longest prefix of digits, and the rest. *)
Fixpoint span_digits (s : string) : string * string :=
  match s with
  | String c s' =>
      if is_digit c
      then let '(d, r) := span_digits s' in (String c d, r)
      else (EmptyString, s)
  | EmptyString => (EmptyString, EmptyString)
  end.

(** The number a string of digits denotes, read from the left. *)
Fixpoint digits_value (acc : N) (s : string) : N :=
  match s with
  | EmptyString => acc
  | String c s' => digits_value (acc * 10 + digit_val c)%N s'
  end.

(** An optional sign: [true] for [-]. *)
Definition split_sign (s : string) : bool * string :=
  match s with
  | String "-" s' => (true, s')
  | String "+" s' => (false, s')
  | _ => (false, s)
  end.

(** [str(n)] and ['%d' % n] for an integer [n]. *)
Definition str_of_N (n : N) : string := NilEmpty.string_of_uint (N.to_uint n).

Definition str_of_Z (z : Z) : string :=
  match z with
  | Zneg p => "-" ++ str_of_N (Npos p)
  | _ => str_of_N (Z.to_N z)
  end.

(** [int(s)] for a string: blanks around, an optional sign, one or more
    decimal digits; anything else is a [ValueError]. *)
Definition int_of_string (s : string) : outcome Z :=
  let '(neg, body) := split_sign (strip s) in
  match span_digits body with
  | (String _ _ as d, EmptyString) =>
      let n := Z.of_N (digits_value 0 d) in
      Ok (if neg then - n else n)
  | _ => Raise ValueError
  end.

(** *** Floats

    A [float] is a binary64 value.  A decimal numeral [m * 10^e] is
    converted with one correct rounding (to nearest, ties to even), as
    the host's [strtod] does: the quotient of the two integers
    [m * 10^max(e,0)] and [10^max(-e,0)] is rounded once by [SFdiv]. *)

Definition prec : Z := 53.
Definition emax : Z := 1024.

Definition float_of_decimal (neg : bool) (m : N) (e : Z) : spec_float :=
  match m with
  | N0 => S754_zero neg
  | Npos p =>
      SFdiv prec emax
        (S754_finite neg (p * Z.to_pos (10 ^ Z.max e 0)) 0)
        (S754_finite false (Z.to_pos (10 ^ Z.max (- e) 0)) 0)
  end.

Definition lower_char (c : ascii) : ascii :=
  let n := nat_of_ascii c in
  if ((65 <=? n) && (n <=? 90))%nat then ascii_of_nat (n + 32) else c.

Fixpoint lower (s : string) : string :=
  match s with
  | EmptyString => EmptyString
  | String c s' => String (lower_char c) (lower s')
  end.

(** The digits of a decimal numeral: integer digits, an optional point
    and fraction digits (one digit at least in all), an optional
    exponent.  The result is the mantissa and the power of ten. *)
Definition parse_decimal (s : string) : option (N * Z) :=
  let '(ip, r1) := span_digits s in
  let '(fp, r2) :=
    match r1 with
    | String "." r => span_digits r
    | _ => (EmptyString, r1)
    end in
  match ip ++ fp with
  | EmptyString => None
  | ds =>
      let m := digits_value 0 ds in
      let scale := - len fp in
      match r2 with
      | EmptyString => Some (m, scale)
      | String c r3 =>
          if (Ascii.eqb c "e" || Ascii.eqb c "E")%bool then
            let '(eneg, r4) := split_sign r3 in
            match span_digits r4 with
            | (String _ _ as ed, EmptyString) =>
                let x := Z.of_N (digits_value 0 ed) in
                Some (m, (if eneg then - x else x) + scale)
            | _ => None
            end
          else None
      end
  end.

(** [float(s)] for a string: blanks around, an optional sign, then
    [inf], [infinity], [nan] (in any case) or a decimal numeral; anything
    else is a [ValueError]. *)
Definition float_of_string (s : string) : outcome spec_float :=
  let '(neg, body) := split_sign (strip s) in
  let word := lower body in
  if (String.eqb word "inf" || String.eqb word "infinity")%bool
  then Ok (S754_infinity neg)
  else if String.eqb word "nan" then Ok S754_nan
  else match parse_decimal body with
       | Some (m, e) => Ok (float_of_decimal neg m e)
       | None => Raise ValueError
       end.

(** [x > 0] for a float. *)
Definition float_is_positive (f : spec_float) : bool :=
  SFltb (S754_zero false) f.

(** [int(abs(x))] for a float: the integer part of the magnitude. *)
Definition float_abs_trunc (f : spec_float) : outcome Z :=
  match f with
  | S754_zero _ => Ok 0
  | S754_finite _ m e =>
      Ok (if 0 <=? e then Z.pos m * 2 ^ e else Z.pos m / 2 ^ (- e))
  | S754_infinity _ => Raise OverflowError
  | S754_nan => Raise ValueError
  end.

(** [x % 1 != 0] for a float: the value is not a whole number.  (The
    remainder of a finite float by 1 is computed without rounding error
    by [fmod]; adding 1 to a negative remainder cannot give 0.) *)
Definition float_has_fraction (f : spec_float) : bool :=
  match f with
  | S754_zero _ => false
  | S754_finite _ m e =>
      if 0 <=? e then false else negb (Z.pos m mod 2 ^ (- e) =? 0)
  | _ => true
  end.

(** The quotient [a / b] of two positive integers rounded to the nearest
    integer, ties to the even one. *)
Definition div_half_even (a b : Z) : Z :=
  let q := a / b in
  let r := a mod b in
  match 2 * r ?= b with
  | Lt => q
  | Gt => q + 1
  | Eq => if Z.even q then q else q + 1
  end.

Fixpoint zeros (n : nat) : string :=
  match n with
  | O => EmptyString
  | S n' => String "0" (zeros n')
  end.

(** ['%.<p>f' % x] for a float [x] and [0 <= p]: the exact value of [x]
    is rounded once to [p] decimals, ties to even. *)
Definition percent_f (p : Z) (f : spec_float) : string :=
  match f with
  | S754_nan => "nan"
  | S754_infinity s => if s then "-inf" else "inf"
  | _ =>
      let '(s, m, e) :=
        match f with
        | S754_finite s m e => (s, Z.pos m, e)
        | S754_zero s => (s, 0, 0)
        | _ => (false, 0, 0)
        end in
      let k :=
        if 0 <=? e then m * 2 ^ e * 10 ^ p
        else div_half_even (m * 10 ^ p) (2 ^ (- e)) in
      let ip := str_of_Z (k / 10 ^ p) in
      let fd := str_of_Z (k mod 10 ^ p) in
      let fp :=
        if p =? 0 then EmptyString
        else "." ++ zeros (Z.to_nat p - String.length fd) ++ fd in
      (if s then "-" else "") ++ ip ++ fp
  end.

End Py.

(** ** The host: the [locale] and [time] modules and the builtins the
    module calls but does not define *)

(** The dictionary [locale.localeconv()] returns; a key that is absent
    is [None] here ([format_price] reads it with [opt.get(key, default)],
    [FloatConverter] with [d[key]]). *)
Record localeconv : Type := {
  thousands_sep : option string;
  decimal_point : option string;
  mon_grouping : option (list Z);
  mon_thousands_sep : option string;
  mon_decimal_point : option string;
  p_cs_precedes : option Z;
  n_cs_precedes : option Z;
  currency_symbol : option string;
  frac_digits : option Z;
  p_sep_by_space : option Z;
  n_sep_by_space : option Z;
  positive_sign : option string;
  negative_sign : option string
}.

Record host : Type := {
  (* locale.localeconv() *)
  h_localeconv : localeconv;
  (* locale.format(format, value, 1) *)
  h_locale_format : pyval -> pyval -> outcome string;
  (* locale.getlocale(locale.LC_MONETARY)[0] *)
  h_monetary_locale : option string;
  (* locale.nl_langinfo(locale.D_FMT) *)
  h_d_fmt : string;
  (* value.strftime(format) *)
  h_strftime : pyval -> pyval -> outcome string;
  (* time.strptime(value, format)[:3] *)
  h_strptime : pyval -> string -> outcome (Z * Z * Z);
  (* format % value *)
  h_percent : pyval -> pyval -> outcome string;
  (* str(value) *)
  h_str : pyval -> outcome string;
  (* sys.maxint *)
  h_maxint : Z
}.

(** [d[key]] *)
Definition getitem {A} (o : option A) : outcome A :=
  match o with
  | Some a => Ok a
  | None => Raise KeyError
  end.

(** The optional [format] argument of a method, after [value]. *)
Definition optional_arg (dflt : pyval) (args : list pyval) : outcome pyval :=
  match args with
  | [] => Ok dflt
  | [a] => Ok a
  | _ => Raise TypeError
  end.

Definition no_more_args (args : list pyval) : outcome unit :=
  match args with
  | [] => Ok tt
  | _ => Raise TypeError
  end.

(** [int(value)], [value] any object. *)
Definition py_int (value : pyval) : outcome Z :=
  match value with
  | VStr s => Py.int_of_string s
  | VInt z => Ok z
  | VLong z => Ok z
  | VBool b => Ok (if b then 1 else 0)
  | VFloat f =>
      do n <- Py.float_abs_trunc f;
      Ok (match f with S754_finite true _ _ => - n | _ => n end)
  | _ => Raise TypeError
  end.

(** The object that holds the integer [z]: an [int] when [z] fits the
    machine word, [-maxint - 1 <= z <= maxint], a [long] otherwise.  This is
    what [int(...)] returns. *)
Definition integer_object (maxint z : Z) : pyval :=
  if (- maxint - 1 <=? z) && (z <=? maxint) then VInt z else VLong z.

(** ** The module *)

(** def lformat(format, value) *)
Definition lformat (h : host) (format value : pyval) : outcome string :=
  h_locale_format h format value.

(** A converter instance: its class attribute [type] and its two
    methods, either of which may be [None]. *)
Definition method : Type := pyval -> list pyval -> outcome pyval.

Record Converter : Type := {
  type : pytype;
  as_string : option method;
  from_string : option method
}.

Definition pytype_index (t : pytype) : positive :=
  match t with
  | TStr => 1 | TInt => 2 | TBool => 3 | TFloat => 4
  | TDate => 5 | TObject => 6 | TNoneType => 7 | TType => 8
  | TLong => 9
  | TClass name id => encode (name, id) + 9
  end%positive.

Definition pytype_of_index (p : positive) : option pytype :=
  if (p <=? 9)%positive then
    match p with
    | 1 => Some TStr | 2 => Some TInt | 3 => Some TBool | 4 => Some TFloat
    | 5 => Some TDate | 6 => Some TObject | 7 => Some TNoneType
    | 8 => Some TType | 9 => Some TLong | _ => None
    end%positive
  else
    (fun '(name, id) => TClass name id) <$> decode (p - 9)%positive.

#[global] Instance pytype_eq_dec : EqDecision pytype.
Proof. solve_decision. Defined.

#[global] Program Instance pytype_countable : Countable pytype :=
  {| encode := pytype_index; decode := pytype_of_index |}.
Next Obligation.
  intros [| | | | | | | | |name id]; try reflexivity.
  unfold pytype_of_index, pytype_index.
  replace (encode (name, id) + 9 <=? 9)%positive with false
    by (symmetry; apply Pos.leb_gt; lia).
  rewrite Pos.add_sub, decode_encode. reflexivity.
Qed.

(** [t.__name__] *)
Definition type_name (t : pytype) : string :=
  match t with
  | TStr => "str" | TInt => "int" | TBool => "bool" | TFloat => "float"
  | TDate => "date" | TObject => "object" | TNoneType => "NoneType"
  | TType => "type" | TLong => "long"
  | TClass name _ => name
  end.

Module ConverterRegistry.

(** [self._converters] *)
Abbreviation t := (gmap pytype Converter).

(** def __init__(self) *)
Definition init : t := ∅.

(** def add(self, converter_type); [c] is [converter_type()] *)
Definition add (self : t) (c : Converter) : t :=
  <[type c := c]> self.

(** def as_string(self, converter_type, data, *args) *)
Definition as_string (self : t) (converter_type : pytype) (data : pyval)
    (args : list pyval) : outcome pyval :=
  match self !! converter_type with
  | None => Raise KeyError
  | Some c =>
      match as_string c with
      | None => Ok data
      | Some c_as_string =>
          if isinstance data (type c)
          then c_as_string data args
          else Raise (AssertionError data (type c) (type_of data))
      end
  end.

(** def from_string(self, converter_type, data, *args) *)
Definition from_string (self : t) (converter_type : pytype) (data : pyval)
    (args : list pyval) : outcome pyval :=
  match self !! converter_type with
  | None => Raise KeyError
  | Some c =>
      match from_string c with
      | None => Ok data
      | Some c_from_string => c_from_string data args
      end
  end.

(** [self._converters.values()]: the converters, in the order of the
    dictionary, which the language leaves open; what is proved about it
    does not depend on the order. *)
Definition values (self : t) : list Converter := (map_to_list self).*2.

(** def get_supported_types(self) *)
Definition get_supported_types (self : t) : list Converter := values self.

(** def get_supported_type_names(self) *)
Definition get_supported_type_names (self : t) : list string :=
  map (fun c => type_name (type c)) (values self).

(** def get_list(self) *)
Definition get_list (self : t) : list Converter := values self.

(** The loop of [str_to_type]; falling off its end returns [None]. *)
Fixpoint str_to_type_loop (cs : list Converter) (value : pyval) : pyval :=
  match cs with
  | [] => VNone
  | c :: cs' =>
      match value with
      | VStr name =>
          if String.eqb (type_name (type c)) name then VType (type c)
          else str_to_type_loop cs' value
      | _ => str_to_type_loop cs' value
      end
  end.

(** def str_to_type(self, value) *)
Definition str_to_type (self : t) (value : pyval) : pyval :=
  str_to_type_loop (values self) value.

End ConverterRegistry.

Module StringConverter.

(** def from_string(self, value) *)
Definition from_string (h : host) : method := fun value args =>
  do _ <- no_more_args args;
  do s <- h_str h value;
  Ok (VStr s).

(** def as_string(self, value, format='%s') *)
Definition as_string (h : host) : method := fun value args =>
  do format <- optional_arg (VStr "%s") args;
  do s <- h_percent h format value;
  Ok (VStr s).

Definition new (h : host) : Converter :=
  Build_Converter TStr (Some (as_string h)) (Some (from_string h)).

End StringConverter.

Module IntConverter.

(** def as_string(self, value, format='%d') *)
Definition as_string (h : host) : method := fun value args =>
  do format <- optional_arg (VStr "%d") args;
  do s <- lformat h format value;
  Ok (VStr s).

(** def from_string(self, value) *)
Definition from_string (h : host) : method := fun value args =>
  do _ <- no_more_args args;
  do n <- except_ValueError (py_int value)
            (ValidationError "This field requires an integer number");
  Ok (integer_object (h_maxint h) n).

Definition new (h : host) : Converter :=
  Build_Converter TInt (Some (as_string h)) (Some (from_string h)).

End IntConverter.

Module BoolConverter.

(** as_string = lambda s, value, format=None: str *)
Definition as_string : method := fun value args =>
  do format <- optional_arg VNone args;
  Ok (VType TStr).

(** def from_string(self, value, default_value=True) *)
Definition from_string : method := fun value args =>
  do default_value <- optional_arg (VBool true) args;
  match value with
  | VStr s =>
      if (String.eqb (Py.upper s) "TRUE"
          || String.eqb (Py.upper s) "1")%bool
      then Ok (VBool true)
      else if (String.eqb (Py.upper s) "FALSE"
               || String.eqb (Py.upper s) "0")%bool
      then Ok (VBool false)
      else Ok default_value
  | _ => Raise AttributeError
  end.

Definition new : Converter :=
  Build_Converter TBool (Some as_string) (Some from_string).

End BoolConverter.

Module FloatConverter.

(** The instance: [self._locale_dictionary], set by [__init__]. *)
Record t : Type := { _locale_dictionary : localeconv }.

(** def __init__(self) *)
Definition init (h : host) : t :=
  {| _locale_dictionary := h_localeconv h |}.

(** def as_string(self, value, format='%f') *)
Definition as_string (h : host) : method := fun value args =>
  do format <- optional_arg (VStr "%f") args;
  do s <- lformat h format value;
  Ok (VStr s).

Definition msg_more_than_one (dec_sep value : string) : string :=
  "You have more than one decimal separator (" ++ Py.dquote ++ dec_sep
  ++ Py.dquote ++ ")  in your number " ++ Py.dquote ++ value ++ Py.dquote.

Definition msg_left_of : string :=
  "The decimal separator is to the left of the thousand separator".

Definition msg_number : string := "This field requires a number".

(** The loop [while th_pos != -1: ...] of [from_string]; one unit of
    fuel per iteration. *)
Fixpoint check_order (fuel : nat) (value th_sep : string)
    (dec_pos th_pos : Z) : outcome unit :=
  if th_pos =? -1 then Ok tt
  else
    match fuel with
    | O => OutOfFuel
    | S fuel' =>
        if dec_pos <? th_pos
        then Raise (ValidationError msg_left_of)
        else check_order fuel' value th_sep dec_pos
               (Py.find value th_sep (th_pos + 1))
    end.

(** The text handed to [float]: lines 165-166. *)
Definition normalise (th_sep dec_sep value : string) : string :=
  Py.replace (Py.replace value th_sep "") dec_sep ".".

(** def from_string(self, value), for a string [value] *)
Definition from_text (self : t) (value : string) : outcome pyval :=
  do th_sep <- getitem (thousands_sep (_locale_dictionary self));
  do dec_sep <- getitem (decimal_point (_locale_dictionary self));
  let th_sep := if String.eqb th_sep "" then "." else th_sep in
  let th_sep_count := Py.count value th_sep in
  let dec_sep_count := Py.count value dec_sep in
  do _ <-
    (if ((0 <? th_sep_count) || (0 <? dec_sep_count))%bool then
       if 1 <? dec_sep_count then
         Raise (ValidationError (msg_more_than_one dec_sep value))
       else if ((0 <? th_sep_count) && (0 <? dec_sep_count))%bool then
         do dec_pos <- Py.index value dec_sep;
         let th_pos := Py.find value th_sep 0 in
         check_order (S (String.length value)) value th_sep dec_pos th_pos
       else Ok tt
     else Ok tt);
  let value := Py.replace value th_sep "" in
  let value := Py.replace value dec_sep "." in
  do f <- except_ValueError (Py.float_of_string value)
            (ValidationError msg_number);
  Ok (VFloat f).

(** def from_string(self, value) *)
Definition from_string (self : t) : method := fun value args =>
  do _ <- no_more_args args;
  match value with
  | VStr s => from_text self s
  | _ => Raise AttributeError
  end.

Definition new (h : host) : Converter :=
  Build_Converter TFloat (Some (as_string h)) (Some (from_string (init h))).

End FloatConverter.

Module DateConverter.

(** The instance: [self._format], set by [update_format]. *)
Record t : Type := { _format : string }.

(** def __init__(self) / def update_format(self) *)
Definition init (h : host) : t := {| _format := h_d_fmt h |}.

(** def as_string(self, value, format=None) *)
Definition as_string (h : host) (self : t) : method := fun value args =>
  do format <- optional_arg VNone args;
  let format :=
    match format with
    | VNone => VStr (_format self)
    | _ => format
    end in
  do s <- h_strftime h value format;
  Ok (VStr s).

Definition msg_date (format : string) : string :=
  "This field requires a date of the format " ++ Py.dquote ++ format
  ++ Py.dquote.

(** def from_string(self, value) *)
Definition from_string (h : host) (self : t) : method := fun value args =>
  do _ <- no_more_args args;
  do dateinfo <- except_ValueError (h_strptime h value (_format self))
                   (ValidationError (msg_date (_format self)));
  let '(year, month, day) := dateinfo in
  Ok (VDate year month day).

Definition new (h : host) : Converter :=
  Build_Converter TDate (Some (as_string h (init h)))
    (Some (from_string h (init h))).

End DateConverter.

Module ObjectConverter.

(** as_string = None; from_string = None *)
Definition new : Converter := Build_Converter TObject None None.

End ObjectConverter.

(** The global [converter], after the six [converter.add(...)] calls. *)
Definition converter (h : host) : ConverterRegistry.t :=
  let c := ConverterRegistry.init in
  let c := ConverterRegistry.add c (StringConverter.new h) in
  let c := ConverterRegistry.add c (IntConverter.new h) in
  let c := ConverterRegistry.add c BoolConverter.new in
  let c := ConverterRegistry.add c (FloatConverter.new h) in
  let c := ConverterRegistry.add c (DateConverter.new h) in
  ConverterRegistry.add c ObjectConverter.new.

(** ** format_price *)

(** The numbers [format_price] is called with: an integer ([int] or
    [long], which it treats alike) or a float. *)
Inductive number : Type :=
  | NInt (z : Z)
  | NFloat (f : spec_float).

(** [value > 0] *)
Definition number_is_positive (value : number) : bool :=
  match value with
  | NInt z => 0 <? z
  | NFloat f => Py.float_is_positive f
  end.

(** [int(abs(value))] *)
Definition number_abs_int (value : number) : outcome Z :=
  match value with
  | NInt z => Ok (Z.abs z)
  | NFloat f => Py.float_abs_trunc f
  end.

(** The truth value of an integer. *)
Definition truthy (z : Z) : bool := negb (z =? 0).

(** [l.pop()]: the last element, and what is left. *)
Definition list_pop {A} (l : list A) : option (A * list A) :=
  match rev l with
  | [] => None
  | x :: r => Some (x, rev r)
  end.

(** The loop [while True: ...] of [format_price] (lines 265-279); one
    unit of fuel per iteration. *)
Fixpoint group_loop (fuel : nat) (group : Z) (groups : list Z)
    (intparts : list string) (intpart : string) : outcome (list string) :=
  match fuel with
  | O => OutOfFuel
  | S fuel' =>
      match intpart with
      | EmptyString => Ok intparts
      | _ =>
          let s := Py.slice_from intpart (- group) in
          let intparts := s :: intparts in
          let intpart := Py.slice_to intpart (- group) in
          match list_pop groups with
          | None => group_loop fuel' group groups intparts intpart
          | Some (last, groups) =>
              let group := if negb (last =? 0) then last else group in
              group_loop fuel' group groups intparts intpart
          end
      end
  end.

(** def format_price(value, symbol=True) *)
Definition format_price (h : host) (fuel : nat) (value : number)
    (symbol : bool) : outcome string :=
  let opt := h_localeconv h in
  let mon_grouping := default [] (mon_grouping opt) in
  let mon_thousands_sep := default "." (mon_thousands_sep opt) in
  let mon_decimal_point := default "." (mon_decimal_point opt) in
  let p_cs_precedes := default 1 (p_cs_precedes opt) in
  let n_cs_precedes := default p_cs_precedes (n_cs_precedes opt) in
  let currency_symbol := default "" (currency_symbol opt) in
  let frac_digits := default 2 (frac_digits opt) in
  let p_sep_by_space := default 1 (p_sep_by_space opt) in
  let n_sep_by_space := default p_sep_by_space (n_sep_by_space opt) in
  let positive_sign := default "" (positive_sign opt) in
  let negative_sign := default "-" (negative_sign opt) in
  let is_pt_BR :=
    match h_monetary_locale h with
    | Some l => String.eqb l "pt_BR"
    | None => false
    end in
  let p_cs_precedes := if is_pt_BR then 1 else p_cs_precedes in
  let n_cs_precedes := if is_pt_BR then 1 else n_cs_precedes in
  let p_sep_by_space := if is_pt_BR then 0 else p_sep_by_space in
  let n_sep_by_space := if is_pt_BR then 0 else n_sep_by_space in
  let frac_digits := if frac_digits =? 127 then 2 else frac_digits in
  let '(cs_precedes, sep_by_space, sign) :=
    if number_is_positive value
    then (p_cs_precedes, p_sep_by_space, positive_sign)
    else (n_cs_precedes, n_sep_by_space, negative_sign) in
  let groups := rev mon_grouping in
  let '(group, groups) :=
    match list_pop groups with
    | Some (g, groups) => (g, groups)
    | None => (3, groups)
    end in
  do n <- number_abs_int value;
  let intpart := Py.str_of_Z n in
  do intparts <- group_loop fuel group groups [] intpart;
  let retval := sign ++ Py.join mon_thousands_sep intparts in
  do retval <-
    (match value with
     | NInt _ => Ok retval                 (* an integer has [value % 1 == 0] *)
     | NFloat f =>
         if Py.float_has_fraction f then
           if frac_digits <? 0 then Raise ValueError
           else
             let dec_part :=
               Py.slice_from (Py.percent_f frac_digits f) (- frac_digits) in
             Ok (retval ++ mon_decimal_point ++ dec_part)
         else Ok retval
     end);
  Ok (if (negb (String.eqb currency_symbol "") && symbol)%bool then
        let space := if truthy sep_by_space then " " else "" in
        if truthy cs_precedes
        then currency_symbol ++ space ++ retval
        else retval ++ space ++ currency_symbol
      else retval).

(** ** Concrete hosts, used to run the module *)

(** The C locale. *)
Definition lc_C : localeconv :=
  {| thousands_sep := Some ""; decimal_point := Some ".";
     mon_grouping := Some []; mon_thousands_sep := Some "";
     mon_decimal_point := Some ""; p_cs_precedes := Some 127;
     n_cs_precedes := Some 127; currency_symbol := Some "";
     frac_digits := Some 127; p_sep_by_space := Some 127;
     n_sep_by_space := Some 127; positive_sign := Some "";
     negative_sign := Some "" |}.

(** A locale with [,] for thousands, [.] for decimals and [$] in front. *)
Definition lc_dollar : localeconv :=
  {| thousands_sep := Some ","; decimal_point := Some ".";
     mon_grouping := Some [3; 0]; mon_thousands_sep := Some ",";
     mon_decimal_point := Some "."; p_cs_precedes := Some 1;
     n_cs_precedes := Some 1; currency_symbol := Some "$";
     frac_digits := Some 2; p_sep_by_space := Some 0;
     n_sep_by_space := Some 0; positive_sign := Some "";
     negative_sign := Some "-" |}.

(** The same with no decimals for money, and one without grouping. *)
Definition lc_no_decimals : localeconv :=
  {| thousands_sep := Some ","; decimal_point := Some ".";
     mon_grouping := Some [3; 0]; mon_thousands_sep := Some ",";
     mon_decimal_point := Some "."; p_cs_precedes := Some 1;
     n_cs_precedes := Some 1; currency_symbol := Some "$";
     frac_digits := Some 0; p_sep_by_space := Some 0;
     n_sep_by_space := Some 0; positive_sign := Some "";
     negative_sign := Some "-" |}.

Definition lc_ungrouped : localeconv :=
  {| thousands_sep := Some ","; decimal_point := Some ".";
     mon_grouping := Some [0; 3]; mon_thousands_sep := Some ",";
     mon_decimal_point := Some "."; p_cs_precedes := Some 0;
     n_cs_precedes := Some 0; currency_symbol := Some "EUR";
     frac_digits := Some 2; p_sep_by_space := Some 1;
     n_sep_by_space := Some 1; positive_sign := Some "";
     negative_sign := Some "-" |}.

(** The host of a given [localeconv] under the monetary locale
    [pt_BR]. *)
Definition pt_BR_host (lc : localeconv) : host :=
  {| h_localeconv := lc;
     h_locale_format := fun _ _ => Raise TypeError;
     h_monetary_locale := Some "pt_BR";
     h_d_fmt := "%d/%m/%Y";
     h_strftime := fun _ _ => Raise TypeError;
     h_strptime := fun _ _ => Raise ValueError;
     h_percent := fun _ _ => Raise TypeError;
     h_str := fun _ => Raise TypeError;
     h_maxint := 2 ^ 63 - 1 |}.

(** A host over a given [localeconv] whose [locale.format] and [%] write
    an integer in plain decimal and a string as it is, and that knows no
    dates. *)
Definition plain_text (value : pyval) : outcome string :=
  match value with
  | VInt z | VLong z => Ok (Py.str_of_Z z)
  | VBool b => Ok (if b then "1" else "0")
  | VStr s => Ok s
  | _ => Raise TypeError
  end.

Definition plain_host (lc : localeconv) : host :=
  {| h_localeconv := lc;
     h_locale_format := fun _ value => plain_text value;
     h_monetary_locale := None;
     h_d_fmt := "%m/%d/%y";
     h_strftime := fun _ _ => Raise TypeError;
     h_strptime := fun _ _ => Raise ValueError;
     h_percent := fun _ value => plain_text value;
     h_str := plain_text;
     h_maxint := 2 ^ 63 - 1 |}.

(** ** Vocabulary of the properties *)

(** [sub] occurs in [s] at index [p]. *)
Definition occurs_at (s sub : string) (p : nat) : Prop :=
  (p <= String.length s)%nat /\ Py.startswith (Py.drop p s) sub = true.

(** [q] is the index of the first occurrence of [sub] in [s]. *)
Definition first_occurrence (s sub : string) (q : nat) : Prop :=
  occurs_at s sub q /\ forall q', occurs_at s sub q' -> (q <= q')%nat.

(** The thousands separator [FloatConverter.from_string] works with. *)
Definition effective_th_sep (th_sep : string) : string :=
  if String.eqb th_sep "" then "." else th_sep.

(** Every converter of a registry built with [add] sits under its own
    [type]. *)
Definition registry_wf (self : ConverterRegistry.t) : Prop :=
  forall k c, self !! k = Some c -> type c = k.

(** No two registered classes have the same [__name__]. *)
Definition names_distinct (self : ConverterRegistry.t) : Prop :=
  forall t t', is_Some (self !! t) -> is_Some (self !! t') ->
    type_name t = type_name t' -> t = t'.

(** A converter a caller could register: its [type] is a class of the
    caller's that is also called [float]. *)
Definition other_float_converter : Converter :=
  Build_Converter (TClass "float" 1) None None.

(** *** The steps of [format_price], as the specification words them *)

(** The size of the [i]-th group of digits, counted from the right, for
    the grouping pattern [g0 :: rest]: the [i]-th size of the pattern, or
    the size of the group before when that size is [0] or the pattern is
    used up. *)
Fixpoint group_size (g0 : Z) (rest : list Z) (i : nat) : Z :=
  match i with
  | O => g0
  | S j =>
      match nth_error rest j with
      | Some g => if g =? 0 then group_size g0 rest j else g
      | None => group_size g0 rest j
      end
  end.

(** The digits, given from the right, cut into groups: group [i] takes
    [group_size g0 rest i] digits, the last one what is left. *)
Fixpoint cut_from_right (fuel : nat) (g0 : Z) (rest : list Z) (i : nat)
    (rdigits : list ascii) : list (list ascii) :=
  match rdigits, fuel with
  | [], _ => []
  | _, O => [rdigits]
  | _, S fuel' =>
      let n := Z.to_nat (group_size g0 rest i) in
      firstn n rdigits :: cut_from_right fuel' g0 rest (S i) (skipn n rdigits)
  end.

(** The text of a group of digits that was taken from the right. *)
Definition group_string (g : list ascii) : string :=
  string_of_list_ascii (rev g).

(** The digit text with the separator between the groups. *)
Definition grouped_text (sep : string) (g0 : Z) (rest : list Z)
    (digits : string) : string :=
  let rdigits := rev (list_ascii_of_string digits) in
  let groups := cut_from_right (List.length rdigits) g0 rest 0 rdigits in
  Py.join sep (rev (map group_string groups)).

(** The monetary conventions in force: the locale's, with the defaults
    for absent keys, the correction for [pt_BR] and 2 decimals when the
    locale says 127. *)
Record conventions : Type := {
  cv_thousands_sep : string;
  cv_decimal_point : string;
  cv_currency_symbol : string;
  cv_frac_digits : Z;
  cv_positive : Z * Z * string;   (* precedes, separated by space, sign *)
  cv_negative : Z * Z * string
}.

Definition conventions_of (h : host) : conventions :=
  let opt := h_localeconv h in
  let pt_BR :=
    match h_monetary_locale h with
    | Some l => String.eqb l "pt_BR"
    | None => false
    end in
  let p_cs := default 1 (p_cs_precedes opt) in
  let p_sep := default 1 (p_sep_by_space opt) in
  let n_cs := default p_cs (n_cs_precedes opt) in
  let n_sep := default p_sep (n_sep_by_space opt) in
  let fd := default 2 (frac_digits opt) in
  {| cv_thousands_sep := default "." (mon_thousands_sep opt);
     cv_decimal_point := default "." (mon_decimal_point opt);
     cv_currency_symbol := default "" (currency_symbol opt);
     cv_frac_digits := if fd =? 127 then 2 else fd;
     cv_positive := (if pt_BR then 1 else p_cs, if pt_BR then 0 else p_sep,
                     default "" (positive_sign opt));
     cv_negative := (if pt_BR then 1 else n_cs, if pt_BR then 0 else n_sep,
                     default "-" (negative_sign opt)) |}.

(** The first group size and the sizes still to be consumed, as
    [format_price] sets them up before its loop. *)
Definition first_group (h : host) : Z * list Z :=
  match default [] (mon_grouping (h_localeconv h)) with
  | [] => (3, [])
  | g :: rest => (g, rev rest)
  end.

(** Steps 5 to 7: the sign, the grouped digits, the decimals if the value
    has any, and the currency symbol on the side and at the distance the
    set [(precedes, separated, sign)] says. *)
Definition price_text (cv : conventions) (set : Z * Z * string)
    (value : number) (symbol : bool) (grouped : string) : outcome string :=
  let '(precedes, separated, sign) := set in
  do decimals <-
    (match value with
     | NInt _ => Ok ""
     | NFloat f =>
         if Py.float_has_fraction f then
           if cv_frac_digits cv <? 0 then Raise ValueError
           else Ok (cv_decimal_point cv
                    ++ Py.slice_from (Py.percent_f (cv_frac_digits cv) f)
                         (- cv_frac_digits cv))
         else Ok ""
     end);
  let number_text := sign ++ grouped ++ decimals in
  Ok (if (negb (String.eqb (cv_currency_symbol cv) "") && symbol)%bool then
        match truthy precedes, truthy separated with
        | true, true => cv_currency_symbol cv ++ " " ++ number_text
        | true, false => cv_currency_symbol cv ++ number_text
        | false, true => number_text ++ " " ++ cv_currency_symbol cv
        | false, false => number_text ++ cv_currency_symbol cv
        end
      else number_text).

(** [value % 1 != 0] *)
Definition number_has_fraction (value : number) : bool :=
  match value with
  | NInt _ => false
  | NFloat f => Py.float_has_fraction f
  end.

(** The sign-dependent set [format_price] takes for a value. *)
Definition sign_set (cv : conventions) (value : number) : Z * Z * string :=
  if number_is_positive value then cv_positive cv else cv_negative cv.

(** The currency symbol put around a text, on the side and at the
    distance the flags say. *)
Definition with_symbol (cv : conventions) (precedes separated : Z)
    (text : string) : string :=
  if String.eqb (cv_currency_symbol cv) "" then text
  else
    match truthy precedes, truthy separated with
    | true, true => cv_currency_symbol cv ++ " " ++ text
    | true, false => cv_currency_symbol cv ++ text
    | false, true => text ++ " " ++ cv_currency_symbol cv
    | false, false => text ++ cv_currency_symbol cv
    end.

(** A character that no integer text has. *)
Definition foreign_char (c : ascii) : bool :=
  negb (Py.is_digit c || Py.is_space c
        || Ascii.eqb c "+" || Ascii.eqb c "-").

(** [value == 0] *)
Definition number_is_zero (value : number) : bool :=
  match value with
  | NInt z => z =? 0
  | NFloat (S754_zero _) => true
  | NFloat _ => false
  end.

(** * Properties *)

(** ** The registry *)

Lemma converter_lookup_int h : converter h !! TInt = Some (IntConverter.new h).
Proof. reflexivity. Qed.

Lemma converter_lookup_bool h : converter h !! TBool = Some BoolConverter.new.
Proof. reflexivity. Qed.

Lemma converter_lookup_float h :
  converter h !! TFloat = Some (FloatConverter.new h).
Proof. reflexivity. Qed.

Lemma converter_lookup_object h :
  converter h !! TObject = Some ObjectConverter.new.
Proof. reflexivity. Qed.

Lemma converter_lookup_none h : converter h !! TNoneType = None.
Proof. reflexivity. Qed.

Lemma registry_wf_init : registry_wf ConverterRegistry.init.
Proof. intros k c H. unfold ConverterRegistry.init in H. by rewrite lookup_empty in H. Qed.

Lemma registry_wf_add self c :
  registry_wf self -> registry_wf (ConverterRegistry.add self c).
Proof.
  intros Hwf k c' H. unfold ConverterRegistry.add in H.
  destruct (decide (type c = k)) as [<- | Hne].
  - rewrite lookup_insert_eq in H. by inversion H.
  - rewrite lookup_insert_ne in H by done. by apply Hwf.
Qed.

Lemma registry_wf_converter h : registry_wf (converter h).
Proof. unfold converter. repeat apply registry_wf_add. apply registry_wf_init. Qed.

(** ** Decimal text of integers *)

Section Digits.

Import Decimal.

Lemma digits_value_uint d acc :
  Py.digits_value acc (NilEmpty.string_of_uint d) =
  match acc with
  | N0 => Pos.of_uint d
  | Npos p => Npos (Pos.of_uint_acc d p)
  end.
Proof.
  revert acc.
  induction d as [|d IH|d IH|d IH|d IH|d IH|d IH|d IH|d IH|d IH|d IH];
    intros acc; [by destruct acc|..];
    cbn [NilEmpty.string_of_uint Py.digits_value]; rewrite IH;
    destruct acc as [|p]; try reflexivity;
    set (k := Py.digit_val _); vm_compute in k; subst k;
    cbn [Pos.of_uint_acc];
    match goal with
    | |- match ?x with _ => _ end = N.pos (Pos.of_uint_acc _ ?q) =>
        replace x with (N.pos q) by lia
    end; reflexivity.
Qed.

Lemma span_digits_uint d :
  Py.span_digits (NilEmpty.string_of_uint d) = (NilEmpty.string_of_uint d, "").
Proof. induction d; cbn; try rewrite IHd; reflexivity. Qed.

Lemma rstrip_uint d :
  Py.rstrip (NilEmpty.string_of_uint d) = NilEmpty.string_of_uint d.
Proof.
  induction d; cbn [NilEmpty.string_of_uint Py.rstrip]; try rewrite IHd;
    try reflexivity; by destruct (NilEmpty.string_of_uint d).
Qed.

Lemma lstrip_uint d :
  Py.lstrip (NilEmpty.string_of_uint d) = NilEmpty.string_of_uint d.
Proof. by destruct d. Qed.

Lemma split_sign_uint d :
  Py.split_sign (NilEmpty.string_of_uint d) = (false, NilEmpty.string_of_uint d).
Proof. by destruct d. Qed.

Lemma string_of_uint_nonempty d :
  d <> Nil -> NilEmpty.string_of_uint d <> "".
Proof. by destruct d. Qed.

End Digits.

Lemma to_uint_nonnil (n : N) : N.to_uint n <> Decimal.Nil.
Proof. destruct n; [done | apply DecimalPos.Unsigned.to_uint_nonnil]. Qed.

Lemma int_of_string_str_of_N (neg : bool) (n : N) :
  Py.int_of_string ((if neg then "-" else "") ++ Py.str_of_N n)
  = Ok (if neg then - Z.of_N n else Z.of_N n).
Proof.
  unfold Py.int_of_string, Py.str_of_N, Py.strip.
  pose proof (string_of_uint_nonempty _ (to_uint_nonnil n)) as Hne.
  assert (Hs : Py.split_sign (Py.rstrip (Py.lstrip
              ((if neg then "-" else "") ++ NilEmpty.string_of_uint (N.to_uint n))))
            = (neg, NilEmpty.string_of_uint (N.to_uint n))).
  { destruct neg.
    - change (Py.split_sign
                (Py.rstrip (String "-" (NilEmpty.string_of_uint (N.to_uint n))))
              = (true, NilEmpty.string_of_uint (N.to_uint n))).
      cbn [Py.rstrip]. rewrite rstrip_uint.
      by destruct (NilEmpty.string_of_uint (N.to_uint n)).
    - change (Py.split_sign
                (Py.rstrip (Py.lstrip (NilEmpty.string_of_uint (N.to_uint n))))
              = (false, NilEmpty.string_of_uint (N.to_uint n))).
      by rewrite lstrip_uint, rstrip_uint, split_sign_uint. }
  rewrite Hs, span_digits_uint.
  destruct (NilEmpty.string_of_uint (N.to_uint n)) eqn:E; [done|].
  rewrite <- E, digits_value_uint.
  change (Pos.of_uint (N.to_uint n)) with (N.of_uint (N.to_uint n)).
  by rewrite DecimalN.Unsigned.of_to.
Qed.

(** [int(str(n)) == n] *)
Lemma int_of_string_str_of_Z (n : Z) :
  Py.int_of_string (Py.str_of_Z n) = Ok n.
Proof.
  destruct n as [|p|p]; unfold Py.str_of_Z.
  - reflexivity.
  - apply (int_of_string_str_of_N false (Npos p)).
  - apply (int_of_string_str_of_N true (Npos p)).
Qed.

(** The integer object of [z] is an [int] exactly when [z] is in the
    range of the machine word. *)
Lemma integer_object_int (maxint z : Z) :
  - maxint - 1 <= z <= maxint -> integer_object maxint z = VInt z.
Proof.
  intros [Hlo Hhi]. unfold integer_object.
  apply Z.leb_le in Hlo, Hhi. by rewrite Hlo, Hhi.
Qed.

Lemma integer_object_long (maxint z : Z) :
  ~ (- maxint - 1 <= z <= maxint) -> integer_object maxint z = VLong z.
Proof.
  intros Hout. unfold integer_object.
  destruct (- maxint - 1 <=? z) eqn:Hlo; [|done].
  destruct (z <=? maxint) eqn:Hhi; [|done].
  apply Z.leb_le in Hlo, Hhi. lia.
Qed.

(** [from_string(int, str(z))] is the integer object of [z], an [int] or a
    [long]. *)
Lemma int_from_string_str_of_Z (h : host) (z : Z) :
  ConverterRegistry.from_string (converter h) TInt (VStr (Py.str_of_Z z)) []
  = Ok (integer_object (h_maxint h) z).
Proof.
  unfold ConverterRegistry.from_string. rewrite converter_lookup_int.
  cbn [IntConverter.new from_string].
  unfold IntConverter.from_string.
  cbn [bind no_more_args py_int].
  by rewrite int_of_string_str_of_Z.
Qed.

(** A [long] is not an instance of [int]: the assertion of [as_string]
    refuses it, whatever the locale. *)
Lemma int_as_string_refuses_long (h : host) (z : Z) (args : list pyval) :
  ConverterRegistry.as_string (converter h) TInt (VLong z) args
  = Raise (AssertionError (VLong z) TInt TLong).
Proof.
  unfold ConverterRegistry.as_string. rewrite converter_lookup_int.
  reflexivity.
Qed.

(** C8, amended: for every integer [n] in the range of the [int] type,
    [-sys.maxint - 1 <= n <= sys.maxint], when the host's
    [locale.format('%d', n, 1)] puts no separator into the text (it returns
    the plain decimal text of [n]): [as_string(int, n)] returns that text,
    [from_string(int, ...)] of that text returns the [int] [n], and so
    parsing what [as_string(int, n)] returns gives [n] back.  Every integer
    [m] outside that range is a [long], and [as_string(int, m)] raises the
    assertion's error instead of returning a text. *)
Theorem int_round_trip (h : host) (n : Z) :
  - h_maxint h - 1 <= n <= h_maxint h ->
  h_locale_format h (VStr "%d") (VInt n) = Ok (Py.str_of_Z n) ->
  integer_object (h_maxint h) n = VInt n
  /\ ConverterRegistry.as_string (converter h) TInt (VInt n) []
     = Ok (VStr (Py.str_of_Z n))
  /\ ConverterRegistry.from_string (converter h) TInt
       (VStr (Py.str_of_Z n)) [] = Ok (VInt n)
  /\ (do s <- ConverterRegistry.as_string (converter h) TInt (VInt n) [];
      ConverterRegistry.from_string (converter h) TInt s []) = Ok (VInt n)
  /\ (forall m args,
        ~ (- h_maxint h - 1 <= m <= h_maxint h) ->
        type_of (integer_object (h_maxint h) m) = TLong
        /\ ConverterRegistry.as_string (converter h) TInt
             (integer_object (h_maxint h) m) args
           = Raise (AssertionError (VLong m) TInt TLong)).
Proof.
  intros Hrange Hfmt.
  assert (Has : ConverterRegistry.as_string (converter h) TInt (VInt n) []
                = Ok (VStr (Py.str_of_Z n))).
  { unfold ConverterRegistry.as_string. rewrite converter_lookup_int.
    cbn [IntConverter.new as_string type isinstance type_of issubclass
         pytype_eqb IntConverter.as_string optional_arg bind].
    unfold lformat. by rewrite Hfmt. }
  assert (Hfrom : ConverterRegistry.from_string (converter h) TInt
                    (VStr (Py.str_of_Z n)) [] = Ok (VInt n)).
  { by rewrite int_from_string_str_of_Z, integer_object_int. }
  split; [by apply integer_object_int|].
  split; [exact Has|]. split; [exact Hfrom|].
  split; [by rewrite Has|].
  intros m args Hout. rewrite (integer_object_long _ _ Hout).
  split; [reflexivity | apply int_as_string_refuses_long].
Qed.

Lemma int_round_trip_witness :
  (do s <- ConverterRegistry.as_string (converter (plain_host lc_C)) TInt
             (VInt (-1234567)) [];
   ConverterRegistry.from_string (converter (plain_host lc_C)) TInt s [])
  = Ok (VInt (-1234567))
  /\ ConverterRegistry.as_string (converter (plain_host lc_C)) TInt
       (integer_object (h_maxint (plain_host lc_C)) (2 ^ 63)) []
     = Raise (AssertionError (VLong (2 ^ 63)) TInt TLong).
Proof.
  pose proof (int_round_trip (plain_host lc_C) (-1234567)
                ltac:(cbn; lia) eq_refl) as (_ & _ & _ & Hrt & Hlong).
  split; [exact Hrt|].
  apply (Hlong (2 ^ 63) []). cbn. lia.
Defined.

(** C8 as stated fails: the integer [2 ^ 70] is a [long] where
    [sys.maxint] is [2 ^ 63 - 1], and [as_string(int, ...)] refuses it by
    its assertion although the locale writes it without separators. *)
Lemma int_round_trip_fails_for_long :
  ~ (forall h n,
       h_locale_format h (VStr "%d") (integer_object (h_maxint h) n)
       = Ok (Py.str_of_Z n) ->
       (do s <- ConverterRegistry.as_string (converter h) TInt
                  (integer_object (h_maxint h) n) [];
        ConverterRegistry.from_string (converter h) TInt s [])
       = Ok (integer_object (h_maxint h) n)).
Proof.
  intros H.
  specialize (H (plain_host lc_C) (2 ^ 70) eq_refl).
  rewrite (integer_object_long _ (2 ^ 70)) in H by (cbn; lia).
  rewrite int_as_string_refuses_long in H.
  discriminate H.
Qed.

(** ** The registry's dispatch *)

(** C5: for every boolean and every [format] argument (given or not),
    [BoolConverter.as_string] returns the builtin [str] itself, directly
    and through the registry; the result is never a text and does not
    depend on the value. *)
Theorem bool_as_string_returns_str (h : host) (b : bool) (format : pyval) :
  BoolConverter.as_string (VBool b) [] = Ok (VType TStr)
  /\ BoolConverter.as_string (VBool b) [format] = Ok (VType TStr)
  /\ ConverterRegistry.as_string (converter h) TBool (VBool b) []
     = Ok (VType TStr)
  /\ ConverterRegistry.as_string (converter h) TBool (VBool b) [format]
     = Ok (VType TStr)
  /\ (forall args s,
        ConverterRegistry.as_string (converter h) TBool (VBool b) args
        <> Ok (VStr s))
  /\ (forall value value' args,
        BoolConverter.as_string value args
        = BoolConverter.as_string value' args).
Proof.
  repeat split; try reflexivity.
  intros args s. unfold ConverterRegistry.as_string.
  rewrite converter_lookup_bool.
  cbn [BoolConverter.new as_string type isinstance type_of issubclass pytype_eqb].
  unfold BoolConverter.as_string.
  by destruct args as [|a [|a' l]].
Qed.

(** C6: in a registry built with [add], for a registered [kind]:
    a converter without [as_string] gives the value back unchanged,
    whatever its type; otherwise a value that is not an instance of [kind]
    makes the call fail with the assertion error, which is not a
    [ValidationError], and a value that is an instance of [kind] is handed
    to the converter's [as_string]. *)
Theorem as_string_kind_check (self : ConverterRegistry.t) (kind : pytype)
    (c : Converter) (data : pyval) (args : list pyval) :
  registry_wf self ->
  self !! kind = Some c ->
  (as_string c = None ->
     ConverterRegistry.as_string self kind data args = Ok data)
  /\ (forall m, as_string c = Some m -> isinstance data kind = false ->
        ConverterRegistry.as_string self kind data args
        = Raise (AssertionError data kind (type_of data))
        /\ is_validation_error
             (ConverterRegistry.as_string self kind data args) = false)
  /\ (forall m, as_string c = Some m -> isinstance data kind = true ->
        ConverterRegistry.as_string self kind data args = m data args).
Proof.
  intros Hwf Hc. pose proof (Hwf _ _ Hc) as Ht.
  unfold ConverterRegistry.as_string. rewrite Hc, Ht.
  split; [|split].
  - by intros ->.
  - by intros m -> ->.
  - by intros m -> ->.
Qed.

Lemma as_string_kind_check_witness :
  ConverterRegistry.as_string (converter (plain_host lc_C)) TInt
    (VStr "12") []
  = Raise (AssertionError (VStr "12") TInt TStr)
  /\ ConverterRegistry.as_string (converter (plain_host lc_C)) TObject
       (VStr "12") [] = Ok (VStr "12")
  /\ ConverterRegistry.as_string (converter (plain_host lc_C)) TInt
       (VInt 12) [] = Ok (VStr "12").
Proof.
  set (h := plain_host lc_C).
  split; [|split].
  - apply (proj1 (proj2 (as_string_kind_check (converter h) TInt
             (IntConverter.new h) (VStr "12") [] (registry_wf_converter h)
             (converter_lookup_int h))) (IntConverter.as_string h));
      reflexivity.
  - apply (proj1 (as_string_kind_check (converter h) TObject
             ObjectConverter.new (VStr "12") [] (registry_wf_converter h)
             (converter_lookup_object h))).
    reflexivity.
  - rewrite (proj2 (proj2 (as_string_kind_check (converter h) TInt
             (IntConverter.new h) (VInt 12) [] (registry_wf_converter h)
             (converter_lookup_int h))) (IntConverter.as_string h));
      reflexivity.
Defined.

(** [isinstance] follows the classes: a [bool] passes the check of the
    [int] converter, a string does not. *)
Example as_string_bool_under_int :
  ConverterRegistry.as_string (converter (plain_host lc_C)) TInt
    (VBool true) [] = Ok (VStr "1")
  /\ ConverterRegistry.as_string (converter (plain_host lc_C)) TBool
       (VInt 1) [] = Raise (AssertionError (VInt 1) TBool TInt).
Proof. split; reflexivity. Qed.

(** C10: with a [converter_type] that has no entry in [self._converters],
    [as_string] and [from_string] raise [KeyError]: the value is not
    passed through and the error is not a [ValidationError]. *)
Theorem unregistered_kind_raises_KeyError (self : ConverterRegistry.t)
    (converter_type : pytype) (data : pyval) (args : list pyval) :
  self !! converter_type = None ->
  ConverterRegistry.as_string self converter_type data args = Raise KeyError
  /\ ConverterRegistry.from_string self converter_type data args
     = Raise KeyError
  /\ ConverterRegistry.as_string self converter_type data args <> Ok data
  /\ ConverterRegistry.from_string self converter_type data args <> Ok data
  /\ is_validation_error
       (ConverterRegistry.as_string self converter_type data args) = false
  /\ is_validation_error
       (ConverterRegistry.from_string self converter_type data args) = false.
Proof.
  intros Hnone.
  unfold ConverterRegistry.as_string, ConverterRegistry.from_string.
  rewrite Hnone. by repeat split.
Qed.

Lemma unregistered_kind_raises_KeyError_witness :
  ConverterRegistry.as_string (converter (plain_host lc_C)) TNoneType
    VNone [] = Raise KeyError
  /\ ConverterRegistry.from_string (converter (plain_host lc_C)) TNoneType
       (VStr "x") [] = Raise KeyError.
Proof.
  split.
  - apply (unregistered_kind_raises_KeyError (converter (plain_host lc_C))
             TNoneType VNone []).
    reflexivity.
  - apply (unregistered_kind_raises_KeyError (converter (plain_host lc_C))
             TNoneType (VStr "x") []).
    reflexivity.
Defined.

(** ** Searching in strings *)

Lemma len_nonneg s : 0 <= Py.len s.
Proof. unfold Py.len. lia. Qed.

Lemma drop_length n s :
  String.length (Py.drop n s) = (String.length s - n)%nat.
Proof.
  revert s. induction n as [|n IH]; intros s; cbn.
  - lia.
  - destruct s; cbn; [reflexivity | apply IH].
Qed.

Lemma drop_drop a b s : Py.drop a (Py.drop b s) = Py.drop (b + a) s.
Proof.
  revert s. induction b as [|b IH]; intros s; cbn; [reflexivity|].
  destruct s; [by destruct a | apply IH].
Qed.

Lemma startswith_empty sub : Py.startswith "" sub = true -> sub = "".
Proof. by destruct sub. Qed.

Lemma startswith_nil s : Py.startswith s "" = true.
Proof. by destruct s. Qed.

Lemma occurs_at_tail c s sub p :
  occurs_at (String c s) sub (S p) <-> occurs_at s sub p.
Proof. unfold occurs_at. cbn. split; intros [? ?]; split; auto; lia. Qed.

Lemma occurs_at_head s sub :
  occurs_at s sub 0 <-> Py.startswith s sub = true.
Proof. unfold occurs_at. cbn. split; [by intros [_ ?] | split; [lia | done]]. Qed.

Lemma count_skip_nonneg k sub s : 0 <= Py.count_skip k sub s.
Proof.
  revert k. induction s as [|c s IH]; intros k; cbn [Py.count_skip]; [lia|].
  destruct k; [|apply IH].
  destruct (Py.startswith _ _); [|apply IH].
  specialize (IH (String.length sub - 1)%nat). lia.
Qed.

Lemma count_nonneg s sub : 0 <= Py.count s sub.
Proof.
  unfold Py.count. destruct sub; [pose proof (len_nonneg s); lia|].
  apply count_skip_nonneg.
Qed.

(** An occurrence is counted. *)
Lemma occurs_count s sub p :
  sub <> "" -> occurs_at s sub p -> 0 < Py.count s sub.
Proof.
  intros Hne. unfold Py.count. destruct sub as [|a sub']; [done|].
  revert p. induction s as [|c s IH]; intros p Hocc.
  - destruct Hocc as [Hp Hpre]. destruct p; [|cbn in Hp; lia].
    by apply startswith_empty in Hpre.
  - cbn [Py.count_skip].
    destruct (Py.startswith (String c s) (String a sub')) eqn:E.
    + pose proof (count_skip_nonneg (String.length (String a sub') - 1)
                    (String a sub') s). lia.
    + destruct p as [|p].
      * apply occurs_at_head in Hocc. congruence.
      * apply occurs_at_tail in Hocc. by apply (IH p).
Qed.

(** Two occurrences of a single character are counted twice. *)
Lemma occurs_twice_count c s p q :
  occurs_at s (String c "") p -> occurs_at s (String c "") q ->
  (p < q)%nat -> 1 < Py.count s (String c "").
Proof.
  unfold Py.count. revert p q.
  induction s as [|a s IH]; intros p q Hp Hq Hlt.
  - destruct Hp as [Hp Hpre]. destruct p; [|cbn in Hp; lia].
    by apply startswith_empty in Hpre.
  - cbn [Py.count_skip].
    destruct q as [|q]; [lia|]. apply occurs_at_tail in Hq.
    destruct (Py.startswith (String a s) (String c "")) eqn:E.
    + pose proof (occurs_count s (String c "") q ltac:(done) Hq) as Hc.
      unfold Py.count in Hc. change (String.length (String c "") - 1)%nat with 0%nat.
      lia.
    + destruct p as [|p].
      * apply occurs_at_head in Hp. congruence.
      * apply occurs_at_tail in Hp. apply (IH p q); [done | done | lia].
Qed.

(** What is counted occurs. *)
Lemma count_occurs s sub : 0 < Py.count s sub -> exists p, occurs_at s sub p.
Proof.
  unfold Py.count. destruct sub as [|a sub'].
  { intros _. exists 0%nat. apply occurs_at_head, startswith_nil. }
  induction s as [|c s IH]; cbn [Py.count_skip]; [lia|].
  destruct (Py.startswith (String c s) (String a sub')) eqn:E.
  - intros _. exists 0%nat. by apply occurs_at_head.
  - intros H. destruct (IH H) as [p Hp]. exists (S p). by apply occurs_at_tail.
Qed.

Lemma find_at_eq sub s pos :
  Py.find_at sub s pos =
  if Py.startswith s sub then pos
  else match s with
       | EmptyString => -1
       | String _ s' => Py.find_at sub s' (pos + 1)
       end.
Proof. by destruct s. Qed.

Lemma find_at_range sub s pos :
  Py.find_at sub s pos = -1
  \/ (pos <= Py.find_at sub s pos
      /\ Py.find_at sub s pos - pos <= Py.len s
      /\ Py.startswith (Py.drop (Z.to_nat (Py.find_at sub s pos - pos)) s) sub
         = true).
Proof.
  revert pos. induction s as [|c s IH]; intros pos.
  - rewrite find_at_eq. destruct (Py.startswith "" sub) eqn:E; [|by left].
    right. rewrite Z.sub_diag. cbn [Z.to_nat Py.drop].
    split; [lia|]. split; [done|]. exact E.
  - rewrite find_at_eq. destruct (Py.startswith (String c s) sub) eqn:E.
    + right. rewrite Z.sub_diag. cbn [Z.to_nat Py.drop].
      pose proof (len_nonneg (String c s)). split; [lia|]. split; [lia|done].
    + destruct (IH (pos + 1)) as [H | (H1 & H2 & H3)]; [by left|].
      right. set (r := Py.find_at sub s (pos + 1)) in *.
      unfold Py.len in *. cbn [String.length].
      split; [lia|]. split; [lia|].
      replace (Z.to_nat (r - pos)) with (S (Z.to_nat (r - (pos + 1)))) by lia.
      exact H3.
Qed.

Lemma find_at_le sub s pos k :
  (k <= String.length s)%nat ->
  Py.startswith (Py.drop k s) sub = true ->
  pos <= Py.find_at sub s pos <= pos + Z.of_nat k.
Proof.
  revert pos k. induction s as [|c s IH]; intros pos k Hk Hpre.
  - cbn in Hk. assert (k = 0%nat) as -> by lia. cbn [Py.drop] in Hpre.
    rewrite find_at_eq, Hpre. lia.
  - rewrite find_at_eq.
    destruct (Py.startswith (String c s) sub) eqn:E; [lia|].
    destruct k as [|k]; [cbn [Py.drop] in Hpre; congruence|].
    cbn [String.length Py.drop] in Hk, Hpre.
    specialize (IH (pos + 1) k ltac:(lia) Hpre). lia.
Qed.

(** [find] returns [-1] or the index of an occurrence at or after
    [start]. *)
Lemma find_occurs s sub start :
  0 <= start ->
  Py.find s sub start = -1
  \/ (start <= Py.find s sub start
      /\ occurs_at s sub (Z.to_nat (Py.find s sub start))).
Proof.
  intros Hs. unfold Py.find.
  replace (start <? 0) with false by lia.
  destruct (Z.ltb_spec (Py.len s) start) as [Hlt | Hge]; [by left|].
  destruct (find_at_range sub (Py.drop (Z.to_nat start) s) start)
    as [H | (H1 & H2 & H3)]; [by left|].
  right. set (r := Py.find_at sub (Py.drop (Z.to_nat start) s) start) in *.
  unfold Py.len in *. rewrite drop_length in H2.
  split; [done|]. split; [lia|].
  rewrite drop_drop in H3.
  by replace (Z.to_nat start + Z.to_nat (r - start))%nat with (Z.to_nat r)
    in H3 by lia.
Qed.

(** [find] does not skip an occurrence. *)
Lemma find_le s sub start p :
  occurs_at s sub p -> 0 <= start <= Z.of_nat p ->
  start <= Py.find s sub start <= Z.of_nat p.
Proof.
  intros [Hp Hpre] Hs. unfold Py.find.
  replace (start <? 0) with false by lia.
  unfold Py.len. replace (Z.of_nat (String.length s) <? start) with false by lia.
  pose proof (find_at_le sub (Py.drop (Z.to_nat start) s) start
                (p - Z.to_nat start)) as H.
  rewrite drop_length, drop_drop in H.
  replace (Z.to_nat start + (p - Z.to_nat start))%nat with p in H by lia.
  specialize (H ltac:(lia) Hpre). lia.
Qed.

(** [find(sub)] is the first occurrence, when there is one. *)
Lemma find_first s sub p :
  occurs_at s sub p ->
  first_occurrence s sub (Z.to_nat (Py.find s sub 0))
  /\ 0 <= Py.find s sub 0 <= Z.of_nat p.
Proof.
  intros Hocc.
  pose proof (find_le s sub 0 p Hocc ltac:(lia)) as Hle.
  destruct (find_occurs s sub 0 ltac:(lia)) as [H | [_ H]]; [lia|].
  split; [|done]. split; [done|].
  intros q' Hq'. pose proof (find_le s sub 0 q' Hq' ltac:(lia)). lia.
Qed.

(** ** FloatConverter.from_string *)

Lemma effective_th_sep_nonempty th : effective_th_sep th <> "".
Proof. unfold effective_th_sep. by destruct th. Qed.

Section CheckOrder.

Variables (value th_sep : string) (dec_pos : Z).

(** The loop stops with the error at the first thousands separator to
    the right of [dec_pos], if there is one. *)
Lemma check_order_raises p fuel th_pos :
  occurs_at value th_sep p -> dec_pos < Z.of_nat p ->
  0 <= th_pos <= Z.of_nat p -> Z.of_nat p - th_pos < Z.of_nat fuel ->
  FloatConverter.check_order fuel value th_sep dec_pos th_pos
  = Raise (ValidationError FloatConverter.msg_left_of).
Proof.
  intros Hocc Hdec. revert th_pos.
  induction fuel as [|fuel IH]; intros th_pos Hth Hfuel; [lia|].
  cbn [FloatConverter.check_order].
  replace (th_pos =? -1) with false by lia.
  destruct (Z.ltb_spec dec_pos th_pos) as [Hlt | Hge]; [reflexivity|].
  pose proof (find_le value th_sep (th_pos + 1) p Hocc ltac:(lia)).
  apply IH; lia.
Qed.

(** The loop ends without error, and within its fuel, when no thousands
    separator is to the right of [dec_pos]. *)
Lemma check_order_passes fuel th_pos :
  (forall p, occurs_at value th_sep p -> Z.of_nat p <= dec_pos) ->
  th_pos = -1
  \/ (0 <= th_pos /\ occurs_at value th_sep (Z.to_nat th_pos)
      /\ Py.len value - th_pos < Z.of_nat fuel) ->
  FloatConverter.check_order fuel value th_sep dec_pos th_pos = Ok tt.
Proof.
  intros Hall. revert th_pos.
  induction fuel as [|fuel IH]; intros th_pos Hth.
  - destruct Hth as [-> | (H0 & [Hle _] & Hfuel)]; [reflexivity|].
    unfold Py.len in Hfuel. lia.
  - cbn [FloatConverter.check_order].
    destruct Hth as [-> | (H0 & Hocc & Hfuel)]; [reflexivity|].
    replace (th_pos =? -1) with false by lia.
    pose proof (Hall _ Hocc) as Hle.
    replace (dec_pos <? th_pos) with false by lia.
    apply IH.
    destruct (find_occurs value th_sep (th_pos + 1) ltac:(lia)) as [? | [? ?]];
      [by left | right; split; [lia | split; [done | lia]]].
Qed.

End CheckOrder.

(** The fuel [from_string] gives its loop is enough: the call returns or
    raises. *)
Lemma check_order_total value th_sep dec_pos fuel th_pos :
  th_pos = -1
  \/ (0 <= th_pos <= Py.len value /\ Py.len value - th_pos < Z.of_nat fuel) ->
  FloatConverter.check_order fuel value th_sep dec_pos th_pos <> OutOfFuel.
Proof.
  revert th_pos. induction fuel as [|fuel IH]; intros th_pos H.
  - destruct H as [-> | [? ?]]; [done | lia].
  - cbn [FloatConverter.check_order].
    destruct H as [-> | [H0 Hfuel]]; [done|].
    replace (th_pos =? -1) with false by lia.
    destruct (dec_pos <? th_pos); [done|].
    apply IH.
    destruct (find_occurs value th_sep (th_pos + 1) ltac:(lia))
      as [? | [? [Hle _]]]; [by left | right].
    unfold Py.len in *. lia.
Qed.

Lemma float_of_string_total s : Py.float_of_string s <> OutOfFuel.
Proof.
  unfold Py.float_of_string.
  destruct (Py.split_sign (Py.strip s)) as [neg body].
  destruct (_ || _)%bool; [done|].
  destruct (String.eqb _ _); [done|].
  by destruct (Py.parse_decimal body) as [[m e]|].
Qed.

Lemma from_text_total self value :
  FloatConverter.from_text self value <> OutOfFuel.
Proof.
  unfold FloatConverter.from_text.
  destruct (thousands_sep _) as [th|]; [|done].
  destruct (decimal_point _) as [dec|]; [|done].
  cbn [getitem bind].
  set (th_sep := if String.eqb th "" then "." else th).
  assert (Hfloat : forall t,
            (do f <- except_ValueError (Py.float_of_string t)
                       (ValidationError FloatConverter.msg_number);
             Ok (VFloat f)) <> OutOfFuel).
  { intros t. pose proof (float_of_string_total t).
    by destruct (Py.float_of_string t) as [f|[]|]. }
  destruct (_ || _)%bool; [|apply Hfloat].
  destruct (1 <? _); [done|].
  destruct (_ && _)%bool; [|apply Hfloat].
  unfold Py.index. destruct (_ =? -1); [done|]. cbn [bind].
  match goal with
  | |- bind ?chk _ <> _ =>
      assert (chk <> OutOfFuel) as Hchk; [|destruct chk as [[]| |]; try done]
  end.
  - apply check_order_total.
    destruct (find_occurs value th_sep 0 ltac:(lia)) as [? | [? [Hle _]]];
      [by left | right].
    unfold Py.len. lia.
  - apply Hfloat.
Qed.

(** [from_string] once the two separators are read from the locale
    dictionary. *)
Lemma from_text_eq self value th dec :
  thousands_sep (FloatConverter._locale_dictionary self) = Some th ->
  decimal_point (FloatConverter._locale_dictionary self) = Some dec ->
  FloatConverter.from_text self value =
  let th_sep := effective_th_sep th in
  do _ <-
    (if ((0 <? Py.count value th_sep) || (0 <? Py.count value dec))%bool then
       if 1 <? Py.count value dec then
         Raise (ValidationError (FloatConverter.msg_more_than_one dec value))
       else if ((0 <? Py.count value th_sep) && (0 <? Py.count value dec))%bool
       then
         do dec_pos <- Py.index value dec;
         FloatConverter.check_order (S (String.length value)) value th_sep
           dec_pos (Py.find value th_sep 0)
       else Ok tt
     else Ok tt);
  do f <- except_ValueError
            (Py.float_of_string (FloatConverter.normalise th_sep dec value))
            (ValidationError FloatConverter.msg_number);
  Ok (VFloat f).
Proof. intros Hth Hdec. unfold FloatConverter.from_text. by rewrite Hth, Hdec. Qed.

Lemma count_dec_positive value dec q : occurs_at value dec q -> 0 < Py.count value dec.
Proof.
  intros Hocc. destruct dec as [|a dec'].
  - unfold Py.count. pose proof (len_nonneg value). lia.
  - by apply (occurs_count value _ q).
Qed.

Lemma index_first value dec q :
  occurs_at value dec q ->
  exists dec_pos, Py.index value dec = Ok dec_pos
    /\ 0 <= dec_pos <= Z.of_nat q
    /\ first_occurrence value dec (Z.to_nat dec_pos).
Proof.
  intros Hocc. destruct (find_first value dec q Hocc) as [Hfirst Hrange].
  exists (Py.find value dec 0). unfold Py.index.
  replace (Py.find value dec 0 =? -1) with false by lia. done.
Qed.

(** C2: when the decimal separator of the locale is counted more than
    once in the text ([value.count(dec_sep) > 1]; for a separator of one
    character: when it stands at two places of the text), [from_string]
    raises the [ValidationError] that names the separator and the text,
    whatever the thousands separator. *)
Theorem float_rejects_repeated_decimal_point
    (self : FloatConverter.t) (value th dec : string) :
  thousands_sep (FloatConverter._locale_dictionary self) = Some th ->
  decimal_point (FloatConverter._locale_dictionary self) = Some dec ->
  (1 < Py.count value dec ->
   FloatConverter.from_string self (VStr value) []
   = Raise (ValidationError (FloatConverter.msg_more_than_one dec value))
   /\ is_validation_error (FloatConverter.from_string self (VStr value) [])
      = true)
  /\ (forall c p q,
        dec = String c "" ->
        occurs_at value dec p -> occurs_at value dec q -> p <> q ->
        FloatConverter.from_string self (VStr value) []
        = Raise (ValidationError (FloatConverter.msg_more_than_one dec value))).
Proof.
  intros Hth Hdec.
  assert (Hmain : 1 < Py.count value dec ->
            FloatConverter.from_string self (VStr value) []
            = Raise (ValidationError
                       (FloatConverter.msg_more_than_one dec value))).
  { intros Hcount.
    cbn [FloatConverter.from_string no_more_args bind].
    rewrite (from_text_eq _ _ _ _ Hth Hdec). cbv zeta.
    replace (0 <? Py.count value dec) with true by lia.
    replace (1 <? Py.count value dec) with true by lia.
    by rewrite orb_true_r. }
  split.
  - intros Hcount. by rewrite (Hmain Hcount).
  - intros c p q -> Hp Hq Hne. apply Hmain.
    destruct (Nat.lt_total p q) as [Hlt | [Heq | Hgt]]; [|done|].
    + by apply (occurs_twice_count c value p q).
    + by apply (occurs_twice_count c value q p).
Qed.

Lemma float_rejects_repeated_decimal_point_witness :
  is_validation_error
    (FloatConverter.from_string (FloatConverter.init (plain_host lc_C))
       (VStr "1.2.3") []) = true
  /\ FloatConverter.from_string (FloatConverter.init (plain_host lc_dollar))
       (VStr "1,000.2.3") []
     = Raise (ValidationError
                (FloatConverter.msg_more_than_one "." "1,000.2.3")).
Proof.
  split.
  - apply (proj1 (float_rejects_repeated_decimal_point
                    (FloatConverter.init (plain_host lc_C)) "1.2.3" "" "."
                    eq_refl eq_refl)).
    reflexivity.
  - apply (proj2 (float_rejects_repeated_decimal_point
                    (FloatConverter.init (plain_host lc_dollar)) "1,000.2.3"
                    "," "." eq_refl eq_refl) "."%char 5%nat 7%nat eq_refl).
    + split; [cbn; lia | reflexivity].
    + split; [cbn; lia | reflexivity].
    + lia.
Defined.

Lemma from_text_misordered self value th dec q p :
  thousands_sep (FloatConverter._locale_dictionary self) = Some th ->
  decimal_point (FloatConverter._locale_dictionary self) = Some dec ->
  occurs_at value dec q -> occurs_at value (effective_th_sep th) p ->
  (q < p)%nat ->
  FloatConverter.from_text self value
  = Raise (ValidationError (FloatConverter.msg_more_than_one dec value))
  \/ FloatConverter.from_text self value
     = Raise (ValidationError FloatConverter.msg_left_of).
Proof.
  intros Hth Hdec Hq Hp Hlt.
  rewrite (from_text_eq _ _ _ _ Hth Hdec). cbv zeta.
  pose proof (count_dec_positive _ _ _ Hq) as Hcd.
  pose proof (occurs_count _ _ _ (effective_th_sep_nonempty th) Hp) as Hct.
  replace (0 <? Py.count value dec) with true by lia.
  replace (0 <? Py.count value (effective_th_sep th)) with true by lia.
  cbn [orb andb].
  destruct (1 <? Py.count value dec); [by left|]. right.
  destruct (index_first _ _ _ Hq) as (dec_pos & -> & Hrange & _).
  cbn [bind].
  pose proof (find_le value (effective_th_sep th) 0 p Hp ltac:(lia)).
  destruct Hp as [Hple Hpre].
  rewrite (check_order_raises value (effective_th_sep th) dec_pos p);
    [reflexivity | by split | lia | lia | lia].
Qed.

(** C3: when the decimal separator occurs in the text to the left of an
    occurrence of the thousands separator, [from_string] raises a
    [ValidationError]; so in a text that [from_string] accepts no
    thousands separator stands to the right of a decimal separator. *)
Theorem float_rejects_misordered_separators
    (self : FloatConverter.t) (value th dec : string) :
  thousands_sep (FloatConverter._locale_dictionary self) = Some th ->
  decimal_point (FloatConverter._locale_dictionary self) = Some dec ->
  (forall q p,
     occurs_at value dec q -> occurs_at value (effective_th_sep th) p ->
     (q < p)%nat ->
     is_validation_error (FloatConverter.from_string self (VStr value) [])
     = true)
  /\ (forall r,
        FloatConverter.from_string self (VStr value) [] = Ok r ->
        forall q p,
          occurs_at value dec q -> occurs_at value (effective_th_sep th) p ->
          (p <= q)%nat).
Proof.
  intros Hth Hdec.
  assert (Hmain : forall q p,
             occurs_at value dec q ->
             occurs_at value (effective_th_sep th) p -> (q < p)%nat ->
             is_validation_error
               (FloatConverter.from_string self (VStr value) []) = true).
  { intros q p Hq Hp Hlt. cbn [FloatConverter.from_string no_more_args bind].
    by destruct (from_text_misordered _ _ _ _ _ _ Hth Hdec Hq Hp Hlt) as [-> | ->]. }
  split; [exact Hmain|].
  intros r Hr q p Hq Hp.
  destruct (Nat.le_gt_cases p q) as [Hle | Hgt]; [done|].
  specialize (Hmain q p Hq Hp Hgt). by rewrite Hr in Hmain.
Qed.

Lemma float_rejects_misordered_separators_witness :
  is_validation_error
    (FloatConverter.from_string (FloatConverter.init (plain_host lc_dollar))
       (VStr "1.234,56") []) = true.
Proof.
  apply (proj1 (float_rejects_misordered_separators
                  (FloatConverter.init (plain_host lc_dollar)) "1.234,56"
                  "," "." eq_refl eq_refl) 1%nat 5%nat).
  - split; [cbn; lia | reflexivity].
  - split; [cbn; lia | reflexivity].
  - lia.
Defined.

(** The checks of [from_string] let a well-formed text through. *)
Lemma from_text_well_formed self value th dec :
  thousands_sep (FloatConverter._locale_dictionary self) = Some th ->
  decimal_point (FloatConverter._locale_dictionary self) = Some dec ->
  Py.count value dec <= 1 ->
  (forall p q,
     occurs_at value (effective_th_sep th) p -> first_occurrence value dec q ->
     (p <= q)%nat) ->
  FloatConverter.from_text self value =
  do f <- except_ValueError
            (Py.float_of_string
               (FloatConverter.normalise (effective_th_sep th) dec value))
            (ValidationError FloatConverter.msg_number);
  Ok (VFloat f).
Proof.
  intros Hth Hdec Hone Hord.
  rewrite (from_text_eq _ _ _ _ Hth Hdec). cbv zeta.
  match goal with
  | |- bind ?chk _ = _ => assert (chk = Ok tt) as ->; [|reflexivity]
  end.
  destruct (_ || _)%bool; [|reflexivity].
  replace (1 <? Py.count value dec) with false by lia.
  destruct (Z.ltb_spec 0 (Py.count value dec)) as [Hd | Hd];
    [|by rewrite andb_false_r].
  destruct (0 <? Py.count value (effective_th_sep th)); [|reflexivity].
  cbn [andb].
  destruct (count_occurs _ _ Hd) as [q0 Hq0].
  destruct (index_first _ _ _ Hq0) as (dec_pos & -> & Hrange & Hfirst).
  cbn [bind].
  apply check_order_passes.
  - intros p Hp. specialize (Hord p _ Hp Hfirst). lia.
  - destruct (find_occurs value (effective_th_sep th) 0 ltac:(lia))
      as [? | [? ?]]; [by left|].
    right. split; [lia|]. split; [done|].
    unfold Py.len. lia.
Qed.

(** C4: a text with at most one decimal separator and no thousands
    separator to the right of it passes the checks; [from_string] then
    parses, as a float, the text with every thousands separator removed
    and the decimal separator replaced by a point, and turns a failure of
    that parse into a [ValidationError].  With [,] and [.] as separators,
    [1,234.56] gives the float 1234.56. *)
Theorem float_accepts_grouped_text (self : FloatConverter.t) (th dec : string) :
  thousands_sep (FloatConverter._locale_dictionary self) = Some th ->
  decimal_point (FloatConverter._locale_dictionary self) = Some dec ->
  (forall value,
     Py.count value dec <= 1 ->
     (forall p q,
        occurs_at value (effective_th_sep th) p ->
        first_occurrence value dec q -> (p <= q)%nat) ->
     let text :=
       Py.replace (Py.replace value (effective_th_sep th) "") dec "." in
     (forall f, Py.float_of_string text = Ok f ->
        FloatConverter.from_string self (VStr value) [] = Ok (VFloat f))
     /\ (Py.float_of_string text = Raise ValueError ->
         FloatConverter.from_string self (VStr value) []
         = Raise (ValidationError FloatConverter.msg_number)))
  /\ (th = "," -> dec = "." ->
      FloatConverter.from_string self (VStr "1,234.56") []
      = Ok (VFloat (Prim2SF 1234.56%float))).
Proof.
  intros Hth Hdec. split.
  - intros value Hone Hord text.
    cbn [FloatConverter.from_string no_more_args bind].
    rewrite (from_text_well_formed _ _ _ _ Hth Hdec Hone Hord).
    fold text. unfold FloatConverter.normalise. fold text.
    split; [intros f Hf | intros Hf]; by rewrite Hf.
  - intros -> ->.
    cbn [FloatConverter.from_string no_more_args bind].
    rewrite (from_text_eq _ _ _ _ Hth Hdec). reflexivity.
Qed.

Lemma float_accepts_grouped_text_witness :
  FloatConverter.from_string (FloatConverter.init (plain_host lc_dollar))
    (VStr "12,345.5") [] = Ok (VFloat (Prim2SF 12345.5%float))
  /\ FloatConverter.from_string (FloatConverter.init (plain_host lc_dollar))
       (VStr "12,3x") [] = Raise (ValidationError FloatConverter.msg_number)
  /\ FloatConverter.from_string (FloatConverter.init (plain_host lc_dollar))
       (VStr "1,234.56") [] = Ok (VFloat (Prim2SF 1234.56%float)).
Proof.
  pose proof (float_accepts_grouped_text
                (FloatConverter.init (plain_host lc_dollar)) "," "."
                eq_refl eq_refl) as [Hgen Hex].
  assert (Hord : forall value : string,
            Py.find value "." 0 = -1 \/ Py.find value "," (Py.find value "." 0 + 1) = -1 ->
            forall p q, occurs_at value (effective_th_sep ",") p ->
                        first_occurrence value "." q -> (p <= q)%nat).
  { intros value Hfind p q Hp [Hq Hmin].
    destruct (Nat.le_gt_cases p q) as [Hle | Hgt]; [done|]. exfalso.
    pose proof (find_first value "." q Hq) as [[Hf1 Hf2] Hf3].
    pose proof (find_le value "," (Py.find value "." 0 + 1) p Hp) as Hle.
    destruct Hfind as [Hfind | Hfind]; [lia|].
    rewrite Hfind in Hle. lia. }
  split; [|split].
  - apply (proj1 (Hgen "12,345.5" ltac:(vm_compute; discriminate)
                    (Hord "12,345.5" ltac:(right; reflexivity)))).
    reflexivity.
  - apply (proj2 (Hgen "12,3x" ltac:(vm_compute; discriminate)
                    (Hord "12,3x" ltac:(left; reflexivity)))).
    reflexivity.
  - by apply Hex.
Defined.

Lemma startswith_point c s :
  Py.startswith (String c s) "." = true -> c = "."%char.
Proof.
  unfold Py.startswith. cbn [String.prefix].
  destruct (ascii_dec "." c) as [Heq | ?]; [by intros _ | discriminate].
Qed.

(** Replacing the point by itself changes nothing. *)
Lemma replace_point_point s : Py.replace s "." "." = s.
Proof.
  unfold Py.replace. induction s as [|c s IH]; [reflexivity|].
  cbn [Py.replace_skip].
  destruct (Py.startswith (String c s) ".") eqn:E.
  - apply startswith_point in E as ->.
    change (String.length "." - 1)%nat with 0%nat. rewrite IH. reflexivity.
  - by rewrite IH.
Qed.

(** C9: when the locale has an empty thousands separator and [.] as
    decimal separator, the thousands separator used is [.]: the text
    [1.5] is accepted and gives 15.0, not 1.5, and whatever text is
    accepted, the float returned is the one read from the text with every
    [.] taken out. *)
Theorem float_C_locale_strips_points (self : FloatConverter.t) :
  thousands_sep (FloatConverter._locale_dictionary self) = Some "" ->
  decimal_point (FloatConverter._locale_dictionary self) = Some "." ->
  effective_th_sep "" = "."
  /\ FloatConverter.from_string self (VStr "1.5") []
     = Ok (VFloat (Prim2SF 15.0%float))
  /\ FloatConverter.from_string self (VStr "1.5") []
     <> Ok (VFloat (Prim2SF 1.5%float))
  /\ (forall value r,
        FloatConverter.from_string self (VStr value) [] = Ok r ->
        exists f, r = VFloat f
          /\ Py.float_of_string (Py.replace value "." "") = Ok f).
Proof.
  intros Hth Hdec.
  assert (Hex : FloatConverter.from_string self (VStr "1.5") []
                = Ok (VFloat (Prim2SF 15.0%float))).
  { cbn [FloatConverter.from_string no_more_args bind].
    rewrite (from_text_eq _ _ _ _ Hth Hdec). reflexivity. }
  split; [reflexivity|]. split; [exact Hex|]. split.
  - rewrite Hex. vm_compute. discriminate.
  - intros value r.
    cbn [FloatConverter.from_string no_more_args bind].
    rewrite (from_text_eq _ _ _ _ Hth Hdec). cbv zeta.
    unfold FloatConverter.normalise.
    change (effective_th_sep "") with ".".
    rewrite replace_point_point.
    match goal with |- bind ?chk _ = _ -> _ => destruct chk as [[]|e|] end;
      cbn [bind]; try discriminate.
    destruct (Py.float_of_string (Py.replace value "." "")) as [f|e|];
      cbn [except_ValueError bind]; [|destruct e|]; try discriminate.
    intros [= <-]. by exists f.
Qed.

Lemma float_C_locale_strips_points_witness :
  FloatConverter.from_string (FloatConverter.init (plain_host lc_C))
    (VStr "1.5") [] = Ok (VFloat (Prim2SF 15.0%float))
  /\ Py.float_of_string (Py.replace "1.5" "." "") = Ok (Prim2SF 15.0%float).
Proof.
  pose proof (float_C_locale_strips_points
                (FloatConverter.init (plain_host lc_C)) eq_refl eq_refl)
    as (_ & Hex & _ & Hgen).
  split; [exact Hex|].
  destruct (Hgen "1.5" _ Hex) as (f & [= <-] & Hf). exact Hf.
Defined.

(** The same through the registry of the C locale. *)
Example registry_float_C_locale :
  ConverterRegistry.from_string (converter (plain_host lc_C)) TFloat
    (VStr "1.5") [] = Ok (VFloat (Prim2SF 15.0%float)).
Proof. reflexivity. Qed.

(** ** format_price *)

Lemma string_app_cons (c : ascii) (s t : string) :
  String c s ++ t = String c (s ++ t).
Proof. reflexivity. Qed.

Lemma string_app_nil_r (s : string) : s ++ "" = s.
Proof.
  induction s as [|c s IH]; [reflexivity|]. by rewrite string_app_cons, IH.
Qed.

Lemma string_app_assoc (a b c : string) : (a ++ b) ++ c = a ++ b ++ c.
Proof.
  induction a as [|x a IH]; [reflexivity|]. by rewrite !string_app_cons, IH.
Qed.

Lemma list_pop_rev_cons {A} (x : A) (l : list A) :
  list_pop (rev (x :: l)) = Some (x, rev l).
Proof. unfold list_pop. by rewrite rev_involutive. Qed.

Lemma list_pop_nil {A} : list_pop (@nil A) = None.
Proof. reflexivity. Qed.

(** The body of [format_price] as the sequence of its steps. *)
Lemma format_price_steps h fuel value symbol :
  format_price h fuel value symbol =
  let cv := conventions_of h in
  do n <- number_abs_int value;
  do intparts <- group_loop fuel (fst (first_group h)) (snd (first_group h))
                   [] (Py.str_of_Z n);
  price_text cv
    (if number_is_positive value then cv_positive cv else cv_negative cv)
    value symbol (Py.join (cv_thousands_sep cv) intparts).
Proof.
  unfold format_price, first_group, conventions_of, price_text. cbv zeta.
  cbn [cv_thousands_sep cv_decimal_point cv_currency_symbol cv_frac_digits
       cv_positive cv_negative].
  destruct (default [] (mon_grouping (h_localeconv h))) as [|g rest] eqn:Eg;
    [cbn [rev list_pop fst snd] | rewrite list_pop_rev_cons; cbn [fst snd]].
  all: destruct (number_is_positive value).
  all: destruct (number_abs_int value) as [n| |]; [|reflexivity..]; cbn [bind].
  all: destruct (group_loop _ _ _ _ _) as [parts| |]; [|reflexivity..];
    cbn [bind].
  all: destruct value as [z|f]; cbn [bind];
    [|destruct (Py.float_has_fraction f); cbn [bind];
      [destruct (_ <? 0); cbn [bind]; [reflexivity|]|]].
  all: rewrite ?string_app_nil_r, ?string_app_assoc.
  all: destruct (_ && _)%bool; try reflexivity.
  all: destruct (truthy _), (truthy _); reflexivity.
Qed.

(** *** The grouping loop *)

Lemma chars_length s :
  List.length (list_ascii_of_string s) = String.length s.
Proof. induction s as [|c s IH]; cbn; [reflexivity | by rewrite IH]. Qed.

Lemma chars_drop n s :
  list_ascii_of_string (Py.drop n s) = skipn n (list_ascii_of_string s).
Proof.
  revert s. induction n as [|n IH]; intros s; [reflexivity|].
  destruct s as [|c s]; [reflexivity | apply IH].
Qed.

Lemma chars_take n s :
  list_ascii_of_string (Py.take n s) = firstn n (list_ascii_of_string s).
Proof.
  revert s. induction n as [|n IH]; intros s; [reflexivity|].
  destruct s as [|c s]; [reflexivity | cbn; by rewrite IH].
Qed.

Lemma neg_bound s g :
  0 < g ->
  Z.to_nat (Py.slice_bound (Py.len s) (- g))
  = (String.length s - Z.to_nat g)%nat.
Proof.
  intros Hg. unfold Py.slice_bound, Py.len.
  replace (- g <? 0) with true by lia. lia.
Qed.

(** [s[-g:]] is the first [g] characters from the right. *)
Lemma slice_from_neg s g :
  0 < g ->
  Py.slice_from s (- g)
  = group_string (firstn (Z.to_nat g) (rev (list_ascii_of_string s))).
Proof.
  intros Hg. unfold Py.slice_from, group_string.
  rewrite neg_bound by done.
  rewrite firstn_rev, rev_involutive, chars_length, <- chars_drop.
  by rewrite string_of_list_ascii_of_string.
Qed.

(** [s[:-g]] is what is left of them. *)
Lemma slice_to_neg s g :
  0 < g ->
  rev (list_ascii_of_string (Py.slice_to s (- g)))
  = skipn (Z.to_nat g) (rev (list_ascii_of_string s)).
Proof.
  intros Hg. unfold Py.slice_to.
  rewrite neg_bound by done.
  by rewrite skipn_rev, chars_length, chars_take.
Qed.

Lemma slice_to_neg_length s g :
  0 < g -> s <> "" ->
  (String.length (Py.slice_to s (- g)) < String.length s)%nat.
Proof.
  intros Hg Hs. unfold Py.slice_to. rewrite neg_bound by done.
  rewrite <- !chars_length, chars_take, length_firstn, chars_length.
  destruct s; [done | cbn; lia].
Qed.

Section Grouping.

Variables (g0 : Z) (rest : list Z).
Hypothesis g0_pos : 0 < g0.
Hypothesis rest_nonneg : Forall (fun g => 0 <= g) rest.

Lemma group_size_pos i : 0 < group_size g0 rest i.
Proof.
  induction i as [|i IH]; [exact g0_pos|].
  cbn [group_size]. destruct (nth_error rest i) as [g|] eqn:E; [|exact IH].
  destruct (Z.eqb_spec g 0) as [| Hne]; [exact IH|].
  apply nth_error_In in E.
  rewrite List.Forall_forall in rest_nonneg. specialize (rest_nonneg g E). lia.
Qed.

Lemma cut_from_right_cons fuel i rdigits :
  rdigits <> [] ->
  cut_from_right (S fuel) g0 rest i rdigits
  = firstn (Z.to_nat (group_size g0 rest i)) rdigits
    :: cut_from_right fuel g0 rest (S i)
         (skipn (Z.to_nat (group_size g0 rest i)) rdigits).
Proof. by destruct rdigits. Qed.

(** With all sizes positive, fuel beyond the number of digits is not
    used. *)
Lemma cut_from_right_fuel f1 f2 i rdigits :
  (List.length rdigits <= f1)%nat -> (List.length rdigits <= f2)%nat ->
  cut_from_right f1 g0 rest i rdigits = cut_from_right f2 g0 rest i rdigits.
Proof.
  revert f2 i rdigits.
  induction f1 as [|f1 IH]; intros f2 i rdigits H1 H2.
  - destruct rdigits; [by destruct f2 | cbn in H1; lia].
  - destruct rdigits as [|c r]; [by destruct f2|].
    destruct f2 as [|f2]; [cbn in H2; lia|].
    rewrite !cut_from_right_cons by done. f_equal.
    pose proof (group_size_pos i).
    apply IH; rewrite length_skipn; cbn [List.length] in *; lia.
Qed.

Lemma list_pop_skipn i :
  list_pop (rev (skipn i rest))
  = match nth_error rest i with
    | Some x => Some (x, rev (skipn (S i) rest))
    | None => None
    end.
Proof.
  clear rest_nonneg. revert i.
  induction rest as [|x r IH]; intros i.
  - by destruct i.
  - destruct i as [|i]; [apply list_pop_rev_cons | apply IH].
Qed.

Lemma skipn_nth_error_None i :
  nth_error rest i = None -> skipn i rest = [].
Proof. intros H. apply nth_error_None in H. by apply skipn_all2. Qed.

(** The loop of [format_price] computes the groups of
    [cut_from_right]. *)
Lemma group_loop_cut fuel i intparts intpart :
  (String.length intpart <= fuel)%nat ->
  group_loop (S fuel) (group_size g0 rest i) (rev (skipn i rest))
    intparts intpart
  = Ok (rev (map group_string
               (cut_from_right fuel g0 rest i
                  (rev (list_ascii_of_string intpart))))
        ++ intparts)%list.
Proof.
  revert i intparts intpart.
  induction fuel as [|fuel IH]; intros i intparts intpart Hlen.
  - destruct intpart; [reflexivity | cbn in Hlen; lia].
  - destruct intpart as [|c s]; [reflexivity|].
    set (intpart := String c s) in *.
    assert (Hne : intpart <> "") by done.
    pose proof (group_size_pos i) as Hpos.
    pose proof (slice_to_neg_length intpart _ Hpos Hne) as Hshort.
    assert (Hrd : rev (list_ascii_of_string intpart) <> []).
    { intros H. apply (f_equal (@List.length _)) in H.
      rewrite length_rev, chars_length in H. cbn in H. lia. }
    rewrite cut_from_right_cons by done.
    cbn [map rev]. rewrite <- app_assoc. cbn [app].
    rewrite <- slice_from_neg, <- slice_to_neg by done.
    rewrite <- IH by lia.
    change (group_loop (S (S fuel)) (group_size g0 rest i)
              (rev (skipn i rest)) intparts intpart)
      with (let s := Py.slice_from intpart (- group_size g0 rest i) in
            let intparts := s :: intparts in
            let intpart := Py.slice_to intpart (- group_size g0 rest i) in
            match list_pop (rev (skipn i rest)) with
            | None =>
                group_loop (S fuel) (group_size g0 rest i)
                  (rev (skipn i rest)) intparts intpart
            | Some (last, groups) =>
                group_loop (S fuel)
                  (if negb (last =? 0) then last else group_size g0 rest i)
                  groups intparts intpart
            end).
    cbv zeta. rewrite list_pop_skipn. cbn [group_size].
    destruct (nth_error rest i) as [x|] eqn:E.
    + by destruct (x =? 0).
    + rewrite (skipn_nth_error_None i E).
      rewrite (skipn_nth_error_None (S i)); [reflexivity|].
      apply nth_error_None. apply nth_error_None in E. lia.
Qed.

(** Enough fuel gives the grouped text. *)
Lemma group_loop_grouped fuel sep digits :
  (String.length digits < fuel)%nat ->
  exists intparts,
    group_loop fuel g0 (rev rest) [] digits = Ok intparts
    /\ Py.join sep intparts = grouped_text sep g0 rest digits.
Proof.
  intros Hfuel. destruct fuel as [|fuel]; [lia|].
  eexists. split.
  - apply (group_loop_cut fuel 0 [] digits). lia.
  - unfold grouped_text. rewrite app_nil_r. do 3 f_equal.
    apply cut_from_right_fuel; rewrite length_rev, chars_length; lia.
Qed.

End Grouping.

Example grouped_text_examples :
  grouped_text "," 3 [0] "1234567" = "1,234,567"
  /\ grouped_text "," 3 [2; 0] "12345678" = "1,23,45,678"
  /\ grouped_text "." 3 [2] "12345678" = "1.23.45.678"
  /\ grouped_text "," 3 [] "123" = "123".
Proof. repeat split; reflexivity. Qed.



Lemma slice_single_digit (g : Z) :
  0 <= g ->
  Py.slice_from "0" (- g) = "0" /\ Py.slice_to "0" (- g) = "".
Proof.
  intros Hg. unfold Py.slice_from, Py.slice_to.
  assert (Z.to_nat (Py.slice_bound (Py.len "0") (- g)) = 0%nat) as ->; [|done].
  unfold Py.slice_bound, Py.len. cbn [String.length].
  destruct (Z.ltb_spec (- g) 0); lia.
Qed.

Lemma group_loop_single_digit fuel g groups :
  0 <= g -> (2 <= fuel)%nat ->
  group_loop fuel g groups [] "0" = Ok ["0"].
Proof.
  intros Hg Hfuel. destruct fuel as [|[|fuel]]; [lia..|].
  destruct (slice_single_digit g Hg) as [Hfrom Hto].
  cbn [group_loop]. rewrite Hfrom, Hto.
  by destruct (list_pop groups) as [[last groups']|].
Qed.

Lemma number_zero_facts value :
  number_is_zero value = true ->
  number_is_positive value = false /\ number_abs_int value = Ok 0.
Proof.
  destruct value as [z|[s|s| |s m e]]; cbn; try discriminate.
  - intros H. apply Z.eqb_eq in H as ->. done.
  - done.
Qed.

(** C7 (as amended): [format_price] takes the flag for the side of the
    currency symbol, the flag for the space and the sign string from the
    positive set exactly when [value > 0], from the negative set
    otherwise.  For the value zero (the first group size not being
    negative) the text is the one built with the negative set around the
    digit [0]: without the symbol it is the negative sign followed by
    [0]. *)
Theorem format_price_sign_selection :
  (forall h fuel value symbol,
     format_price h fuel value symbol =
     let cv := conventions_of h in
     do n <- number_abs_int value;
     do intparts <- group_loop fuel (fst (first_group h))
                      (snd (first_group h)) [] (Py.str_of_Z n);
     price_text cv
       (if number_is_positive value then cv_positive cv else cv_negative cv)
       value symbol (Py.join (cv_thousands_sep cv) intparts))
  /\ (forall h fuel value symbol,
        number_is_zero value = true ->
        0 <= fst (first_group h) -> (2 <= fuel)%nat ->
        format_price h fuel value symbol
        = price_text (conventions_of h) (cv_negative (conventions_of h))
            value symbol "0"
        /\ format_price h fuel value false
           = Ok (default "-" (negative_sign (h_localeconv h)) ++ "0")).
Proof.
  split; [exact format_price_steps|].
  intros h fuel value symbol Hzero Hg Hfuel.
  destruct (number_zero_facts value Hzero) as [Hpos Habs].
  assert (Hgen : forall symbol,
            format_price h fuel value symbol
            = price_text (conventions_of h) (cv_negative (conventions_of h))
                value symbol "0").
  { intros sym. rewrite format_price_steps. cbv zeta.
    rewrite Hpos, Habs. cbn [bind].
    change (Py.str_of_Z 0) with "0".
    by rewrite group_loop_single_digit. }
  split; [apply Hgen|].
  rewrite Hgen. unfold price_text, conventions_of.
  cbn [cv_negative cv_currency_symbol].
  rewrite andb_false_r.
  destruct value as [z|[s|s| |s m e]]; try discriminate Hzero;
    cbn [bind Py.float_has_fraction]; by rewrite string_app_nil_r.
Qed.

Lemma format_price_sign_selection_witness :
  format_price (plain_host lc_dollar) 2 (NInt 0) false = Ok "-0"
  /\ format_price (plain_host lc_dollar) 2 (NFloat (S754_zero false)) true
     = Ok "$-0".
Proof.
  split.
  - apply (proj2 format_price_sign_selection (plain_host lc_dollar) 2%nat
             (NInt 0) false); [reflexivity | cbn; lia | lia].
  - rewrite (proj1 (proj2 format_price_sign_selection (plain_host lc_dollar)
                      2%nat (NFloat (S754_zero false)) true
                      eq_refl ltac:(cbn; lia) ltac:(lia))).
    reflexivity.
Defined.

(** C7 as stated fails: with the symbol in front, the text for zero
    begins with the symbol, not with the negative sign. *)
Lemma format_price_zero_begins_with_symbol :
  ~ (forall h fuel text,
       format_price h fuel (NInt 0) true = Ok text ->
       Py.startswith text (default "-" (negative_sign (h_localeconv h)))
       = true).
Proof.
  intros H.
  specialize (H (plain_host lc_dollar) 2%nat "$-0" eq_refl).
  discriminate H.
Qed.

(** * Further properties *)

(** ** The registry: registering and listing *)

(** X1: [add] stores the converter under its own type, replacing the one
    that was there, and leaves the other kinds alone; both dispatching
    methods then reach it. *)
Theorem add_registers (self : ConverterRegistry.t) (c c' : Converter) :
  ConverterRegistry.add self c !! type c = Some c
  /\ (forall k, k <> type c -> ConverterRegistry.add self c !! k = self !! k)
  /\ (type c' = type c ->
      ConverterRegistry.add (ConverterRegistry.add self c') c
      = ConverterRegistry.add self c)
  /\ (registry_wf self -> registry_wf (ConverterRegistry.add self c))
  /\ (forall data args,
        ConverterRegistry.from_string (ConverterRegistry.add self c) (type c)
          data args
        = match from_string c with
          | None => Ok data
          | Some m => m data args
          end).
Proof.
  unfold ConverterRegistry.add. split; [apply lookup_insert_eq|].
  split; [intros k Hk; by apply lookup_insert_ne|].
  split; [intros ->; apply insert_insert_eq|].
  split; [apply registry_wf_add|].
  intros data args. unfold ConverterRegistry.from_string.
  by rewrite lookup_insert_eq.
Qed.

Lemma values_elem (self : ConverterRegistry.t) c :
  c ∈ ConverterRegistry.values self <-> exists k, self !! k = Some c.
Proof.
  unfold ConverterRegistry.values. rewrite list_elem_of_fmap. split.
  - intros [[k c0] [-> Hin]]. exists k. by apply elem_of_map_to_list.
  - intros [k Hk]. exists (k, c). split; [done|]. by apply elem_of_map_to_list.
Qed.

(** When some converter of the list has the name, the loop returns the
    type of one that has it (the first). *)
Lemma str_to_type_loop_found cs name :
  (exists c, c ∈ cs /\ type_name (type c) = name) ->
  exists c', c' ∈ cs /\ type_name (type c') = name
             /\ ConverterRegistry.str_to_type_loop cs (VStr name)
                = VType (type c').
Proof.
  induction cs as [|c cs IH]; intros (c0 & Hin & Hn).
  - by apply elem_of_nil in Hin.
  - cbn [ConverterRegistry.str_to_type_loop].
    destruct (String.eqb_spec (type_name (type c)) name) as [E | E].
    + exists c. split; [apply elem_of_cons; by left | done].
    + destruct IH as (c' & Hin' & Hn' & Hl).
      { apply elem_of_cons in Hin as [-> | Hin]; [congruence|]. by exists c0. }
      exists c'. split; [apply elem_of_cons; by right | done].
Qed.

Lemma str_to_type_loop_none cs value :
  (forall c name, c ∈ cs -> value = VStr name -> type_name (type c) <> name) ->
  ConverterRegistry.str_to_type_loop cs value = VNone.
Proof.
  induction cs as [|c cs IH]; intros H; [reflexivity|].
  cbn [ConverterRegistry.str_to_type_loop].
  assert (IH' : ConverterRegistry.str_to_type_loop cs value = VNone).
  { apply IH. intros c0 name Hin. apply H. by apply elem_of_cons; right. }
  destruct value as [name| | | | | | | |]; try exact IH'.
  destruct (String.eqb_spec (type_name (type c)) name) as [E | E]; [|exact IH'].
  exfalso. apply (H c name); [apply elem_of_cons; by left | done | done].
Qed.

(** [str_to_type] of the name of a registered type returns a registered
    type of that name. *)
Lemma str_to_type_found (self : ConverterRegistry.t) t c :
  registry_wf self -> self !! t = Some c ->
  exists t', ConverterRegistry.str_to_type self (VStr (type_name t)) = VType t'
             /\ type_name t' = type_name t /\ is_Some (self !! t').
Proof.
  intros Hwf Hc.
  destruct (str_to_type_loop_found (ConverterRegistry.values self)
              (type_name t)) as (c' & Hin & Hn & Hl).
  { exists c. split; [apply values_elem; by exists t|]. by rewrite (Hwf _ _ Hc). }
  apply values_elem in Hin as [k Hk].
  exists (type c'). split; [exact Hl|]. split; [exact Hn|].
  exists c'. by rewrite (Hwf _ _ Hk).
Qed.

(** The six classes of the global [converter]. *)
Lemma converter_keys h t c :
  converter h !! t = Some c ->
  t ∈ [TStr; TInt; TBool; TFloat; TDate; TObject].
Proof.
  unfold converter, ConverterRegistry.add, ConverterRegistry.init.
  cbn [type StringConverter.new IntConverter.new BoolConverter.new
       FloatConverter.new DateConverter.new ObjectConverter.new].
  rewrite !lookup_insert_Some, lookup_empty.
  rewrite !elem_of_cons.
  intros [[<- _] | [_ [[<- _] | [_ [[<- _] | [_ [[<- _] | [_ [[<- _]
          | [_ [[<- _] | [_ H]]]]]]]]]]]]; [auto 10 .. | discriminate H].
Qed.

Lemma names_distinct_converter h : names_distinct (converter h).
Proof.
  intros t t' [c Hc] [c' Hc'] Hn.
  apply converter_keys in Hc, Hc'.
  rewrite !elem_of_cons, elem_of_nil in Hc, Hc'.
  destruct Hc as [-> | [-> | [-> | [-> | [-> | [-> | []]]]]]];
    destruct Hc' as [-> | [-> | [-> | [-> | [-> | [-> | []]]]]]];
    first [reflexivity | discriminate Hn].
Qed.

(** X2: [add] accepts a converter for any class, so two registered classes
    can have the same name.  [str_to_type(t.__name__)] returns [t] for every
    registered class [t] exactly when no two registered classes share a
    name; and [str_to_type] returns [None] for a value that is not the name
    of a registered class (a name not registered, or not a string).  It
    never raises. *)
Theorem str_to_type_of_name (self : ConverterRegistry.t) :
  registry_wf self ->
  ((forall t c, self !! t = Some c ->
      ConverterRegistry.str_to_type self (VStr (type_name t)) = VType t)
   <-> names_distinct self)
  /\ (forall value,
        (forall t c, self !! t = Some c -> value <> VStr (type_name t)) ->
        ConverterRegistry.str_to_type self value = VNone).
Proof.
  intros Hwf. split; [split|].
  - intros Hall t t' [c Hc] [c' Hc'] Hn.
    pose proof (Hall t c Hc) as Ht. pose proof (Hall t' c' Hc') as Ht'.
    rewrite Hn, Ht' in Ht. by injection Ht.
  - intros Hdist t c Hc.
    destruct (str_to_type_found self t c Hwf Hc) as (t' & Hs & Hn & Hreg).
    rewrite Hs. f_equal. apply Hdist; [done | by exists c | done].
  - intros value Hnone. apply str_to_type_loop_none.
    intros c name Hin -> Hname. apply values_elem in Hin as [k Hk].
    apply (Hnone k c Hk). by rewrite <- (Hwf _ _ Hk), Hname.
Qed.

Lemma str_to_type_of_name_witness :
  ConverterRegistry.str_to_type (converter (plain_host lc_C)) (VStr "float")
  = VType TFloat
  /\ ConverterRegistry.str_to_type (converter (plain_host lc_C))
       (VStr "unicode") = VNone
  /\ ~ (forall t c,
          ConverterRegistry.add (converter (plain_host lc_C))
            other_float_converter !! t = Some c ->
          ConverterRegistry.str_to_type
            (ConverterRegistry.add (converter (plain_host lc_C))
               other_float_converter) (VStr (type_name t)) = VType t).
Proof.
  pose proof (str_to_type_of_name (converter (plain_host lc_C))
                (registry_wf_converter _)) as [Hfound Hnone].
  split; [|split].
  - apply (proj2 Hfound (names_distinct_converter _) TFloat _
             (converter_lookup_float _)).
  - apply Hnone. intros t c Hc. apply converter_keys in Hc.
    rewrite !elem_of_cons, elem_of_nil in Hc.
    destruct Hc as [-> | [-> | [-> | [-> | [-> | [-> | []]]]]]]; discriminate.
  - pose proof (str_to_type_of_name
                  (ConverterRegistry.add (converter (plain_host lc_C))
                     other_float_converter)
                  (registry_wf_add _ _ (registry_wf_converter _)))
      as [Hfound' _].
    intros Hall. apply (proj1 Hfound') in Hall.
    assert (E : TFloat = TClass "float" 1); [|discriminate E].
    apply Hall; [| |reflexivity].
    + exists (FloatConverter.new (plain_host lc_C)).
      unfold ConverterRegistry.add. rewrite lookup_insert_ne by discriminate.
      apply converter_lookup_float.
    + exists other_float_converter.
      unfold ConverterRegistry.add. apply lookup_insert_eq.
Defined.

(** X3: The names [get_supported_type_names] lists are those of the
    registered types, and [str_to_type] resolves each of them to a
    registered type of that name. *)
Theorem supported_type_names_resolve (self : ConverterRegistry.t)
    (name : string) :
  registry_wf self ->
  (name ∈ ConverterRegistry.get_supported_type_names self
   <-> exists t c, self !! t = Some c /\ type_name t = name)
  /\ (name ∈ ConverterRegistry.get_supported_type_names self ->
      exists t, ConverterRegistry.str_to_type self (VStr name) = VType t
                /\ type_name t = name /\ is_Some (self !! t)).
Proof.
  intros Hwf.
  assert (Hiff : name ∈ ConverterRegistry.get_supported_type_names self
                 <-> exists t c, self !! t = Some c /\ type_name t = name).
  { unfold ConverterRegistry.get_supported_type_names.
    change (map (fun c => type_name (type c)) (ConverterRegistry.values self))
      with ((fun c => type_name (type c)) <$> ConverterRegistry.values self).
    rewrite list_elem_of_fmap. split.
    - intros (c & -> & Hin). apply values_elem in Hin as [k Hk].
      exists k, c. split; [done|]. by rewrite (Hwf _ _ Hk).
    - intros (t & c & Hc & <-). exists c. split.
      + by rewrite (Hwf _ _ Hc).
      + apply values_elem. by exists t. }
  split; [exact Hiff|].
  intros Hin. apply Hiff in Hin as (t & c & Hc & <-).
  by apply (str_to_type_found self t c).
Qed.

Lemma add_registers_witness :
  ConverterRegistry.add (converter (plain_host lc_C)) BoolConverter.new
    !! TInt = Some (IntConverter.new (plain_host lc_C))
  /\ ConverterRegistry.add
       (ConverterRegistry.add ConverterRegistry.init
          (IntConverter.new (plain_host lc_C)))
       (IntConverter.new (plain_host lc_dollar))
     = ConverterRegistry.add ConverterRegistry.init
         (IntConverter.new (plain_host lc_dollar))
  /\ registry_wf (ConverterRegistry.add ConverterRegistry.init
                    BoolConverter.new).
Proof.
  split; [|split].
  - rewrite (proj1 (proj2 (add_registers (converter (plain_host lc_C))
                             BoolConverter.new BoolConverter.new))
               TInt ltac:(discriminate)).
    reflexivity.
  - apply (proj1 (proj2 (proj2 (add_registers ConverterRegistry.init
                                  (IntConverter.new (plain_host lc_dollar))
                                  (IntConverter.new (plain_host lc_C)))))).
    reflexivity.
  - apply (proj1 (proj2 (proj2 (proj2 (add_registers ConverterRegistry.init
                                         BoolConverter.new
                                         BoolConverter.new))))).
    apply registry_wf_init.
Defined.

Lemma supported_type_names_resolve_witness :
  "date" ∈ ConverterRegistry.get_supported_type_names
             (converter (plain_host lc_C))
  /\ exists t,
       ConverterRegistry.str_to_type (converter (plain_host lc_C))
         (VStr "date") = VType t
       /\ type_name t = "date".
Proof.
  pose proof (supported_type_names_resolve (converter (plain_host lc_C))
                "date" (registry_wf_converter _)) as [Hiff Hres].
  assert (Hin : "date" ∈ ConverterRegistry.get_supported_type_names
                           (converter (plain_host lc_C))).
  { apply Hiff. exists TDate. eexists. split; reflexivity. }
  split; [exact Hin|].
  destruct (Hres Hin) as (t & Ht & Hname & _). by exists t.
Defined.

(** X4: A value of any type goes through the [object] converter and back
    unchanged: neither direction converts or checks it. *)
Theorem object_round_trip (h : host) (data : pyval) (args args' : list pyval) :
  ConverterRegistry.as_string (converter h) TObject data args = Ok data
  /\ ConverterRegistry.from_string (converter h) TObject data args' = Ok data
  /\ (do s <- ConverterRegistry.as_string (converter h) TObject data args;
      ConverterRegistry.from_string (converter h) TObject s args') = Ok data.
Proof.
  unfold ConverterRegistry.as_string, ConverterRegistry.from_string.
  rewrite converter_lookup_object. by repeat split.
Qed.

(** ** BoolConverter.from_string *)

Lemma upper_char_idem c : Py.upper_char (Py.upper_char c) = Py.upper_char c.
Proof. destruct c as [[] [] [] [] [] [] [] []]; reflexivity. Qed.

Lemma upper_lower_char c : Py.upper_char (Py.lower_char c) = Py.upper_char c.
Proof. destruct c as [[] [] [] [] [] [] [] []]; reflexivity. Qed.

Lemma upper_idem s : Py.upper (Py.upper s) = Py.upper s.
Proof.
  induction s as [|c s IH]; [reflexivity|].
  cbn [Py.upper]. by rewrite upper_char_idem, IH.
Qed.

Lemma upper_lower s : Py.upper (Py.lower s) = Py.upper s.
Proof.
  induction s as [|c s IH]; [reflexivity|].
  cbn [Py.upper Py.lower]. by rewrite upper_lower_char, IH.
Qed.

(** X5: For a text and at most one more argument, [BoolConverter.from_string]
    never raises: it returns [True], [False] or the default (which is
    [True] when none is given); and the case of the letters of the text
    does not matter. *)
Theorem bool_from_string_case_insensitive (s : string) (dflt : pyval) :
  (exists b, BoolConverter.from_string (VStr s) [] = Ok (VBool b))
  /\ (BoolConverter.from_string (VStr s) [dflt] = Ok (VBool true)
      \/ BoolConverter.from_string (VStr s) [dflt] = Ok (VBool false)
      \/ BoolConverter.from_string (VStr s) [dflt] = Ok dflt)
  /\ (forall args,
        BoolConverter.from_string (VStr (Py.upper s)) args
        = BoolConverter.from_string (VStr s) args
        /\ BoolConverter.from_string (VStr (Py.lower s)) args
           = BoolConverter.from_string (VStr s) args).
Proof.
  unfold BoolConverter.from_string. cbn [optional_arg bind].
  split; [|split].
  - destruct (_ || _)%bool; [by exists true|].
    destruct (_ || _)%bool; [by exists false | by exists true].
  - destruct (_ || _)%bool; [by left|].
    destruct (_ || _)%bool; [right; by left | right; by right].
  - intros args. by rewrite upper_idem, upper_lower.
Qed.

Example bool_from_string_examples :
  BoolConverter.from_string (VStr "true") [] = Ok (VBool true)
  /\ BoolConverter.from_string (VStr "False") [] = Ok (VBool false)
  /\ BoolConverter.from_string (VStr "no") [] = Ok (VBool true)
  /\ BoolConverter.from_string (VStr "no") [VBool false] = Ok (VBool false).
Proof. repeat split; reflexivity. Qed.

(** ** IntConverter.from_string *)

Lemma lstrip_keeps c s :
  In c (list_ascii_of_string s) -> Py.is_space c = false ->
  In c (list_ascii_of_string (Py.lstrip s)).
Proof.
  intros Hin Hc. induction s as [|a s IH]; [done|].
  cbn [Py.lstrip]. destruct (Py.is_space a) eqn:Ea; [|exact Hin].
  apply IH. destruct Hin as [-> | Hin]; [congruence | exact Hin].
Qed.

Lemma rstrip_keeps c s :
  In c (list_ascii_of_string s) -> Py.is_space c = false ->
  In c (list_ascii_of_string (Py.rstrip s)).
Proof.
  intros Hin Hc. induction s as [|a s IH]; [done|].
  cbn [Py.rstrip]. destruct Hin as [-> | Hin].
  - destruct (Py.rstrip s); [rewrite Hc|]; by left.
  - specialize (IH Hin). destruct (Py.rstrip s) as [|b r]; [done|].
    by right.
Qed.

Lemma split_sign_cases s :
  Py.split_sign s = (false, s)
  \/ exists a b s', s = String a s' /\ Py.split_sign s = (b, s')
       /\ (a = "+"%char \/ a = "-"%char).
Proof.
  destruct s as [|a s']; [by left|].
  destruct a as [[] [] [] [] [] [] [] []];
    first [by left | right; eexists _, _, s'; split; [reflexivity|];
           split; [reflexivity|]; by (left + right)].
Qed.

Lemma split_sign_keeps c s :
  In c (list_ascii_of_string s) ->
  Ascii.eqb c "+" = false -> Ascii.eqb c "-" = false ->
  In c (list_ascii_of_string (snd (Py.split_sign s))).
Proof.
  intros Hin Hp Hm.
  destruct (split_sign_cases s) as [-> | (a & b & s' & -> & -> & Ha)];
    [exact Hin|].
  cbn [snd]. destruct Hin as [<- | Hin]; [|exact Hin].
  destruct Ha as [-> | ->]; [by rewrite Ascii.eqb_refl in Hp
                            | by rewrite Ascii.eqb_refl in Hm].
Qed.

Lemma span_digits_rest c s :
  In c (list_ascii_of_string s) -> Py.is_digit c = false ->
  snd (Py.span_digits s) <> "".
Proof.
  intros Hin Hc. induction s as [|a s IH]; [done|].
  cbn [Py.span_digits]. destruct (Py.is_digit a) eqn:Ea; [|done].
  destruct Hin as [-> | Hin]; [congruence|].
  specialize (IH Hin). by destruct (Py.span_digits s).
Qed.

Lemma int_of_string_outcomes s :
  (exists n, Py.int_of_string s = Ok n) \/ Py.int_of_string s = Raise ValueError.
Proof.
  unfold Py.int_of_string.
  destruct (Py.split_sign (Py.strip s)) as [neg body].
  destruct (Py.span_digits body) as [[|a d] [|b r]]; eauto.
Qed.

(** X6: [IntConverter.from_string] gives, for a text, an integer (the
    [int] or [long] object of the number the text writes) or the
    [ValidationError] asking for an integer, nothing else; and a text with
    a character that is no digit, sign or blank (a thousands separator,
    say) is always refused. *)
Theorem int_from_string_refuses_foreign_text (h : host) (s : string) :
  ((exists n, Py.int_of_string s = Ok n
              /\ IntConverter.from_string h (VStr s) []
                 = Ok (integer_object (h_maxint h) n))
   \/ IntConverter.from_string h (VStr s) []
      = Raise (ValidationError "This field requires an integer number"))
  /\ (forall c,
        In c (list_ascii_of_string s) -> foreign_char c = true ->
        IntConverter.from_string h (VStr s) []
        = Raise (ValidationError "This field requires an integer number")).
Proof.
  unfold IntConverter.from_string. cbn [no_more_args bind py_int].
  split.
  - destruct (int_of_string_outcomes s) as [[n ->] | ->]; [left | by right].
    by exists n.
  - intros c Hin Hc. unfold foreign_char in Hc.
    apply negb_true_iff in Hc.
    apply orb_false_iff in Hc as [Hc Hm].
    apply orb_false_iff in Hc as [Hc Hp].
    apply orb_false_iff in Hc as [Hd Hs].
    assert (Py.int_of_string s = Raise ValueError) as ->; [|reflexivity].
    unfold Py.int_of_string, Py.strip.
    pose proof (split_sign_keeps c _
                  (rstrip_keeps c _ (lstrip_keeps c s Hin Hs) Hs) Hp Hm) as Hb.
    destruct (Py.split_sign (Py.rstrip (Py.lstrip s))) as [neg body].
    cbn [snd] in Hb. pose proof (span_digits_rest c body Hb Hd) as Hr.
    by destruct (Py.span_digits body) as [[|a d] [|b r]].
Qed.

Lemma int_from_string_refuses_foreign_text_witness :
  IntConverter.from_string (plain_host lc_C) (VStr "1,234") []
  = Raise (ValidationError "This field requires an integer number").
Proof.
  apply (proj2 (int_from_string_refuses_foreign_text (plain_host lc_C)
                  "1,234") ","%char).
  - cbn. tauto.
  - reflexivity.
Defined.

(** ** FloatConverter.from_string: what it can answer *)

Lemma check_order_outcomes value th_sep dec_pos fuel th_pos :
  FloatConverter.check_order fuel value th_sep dec_pos th_pos = Ok tt
  \/ FloatConverter.check_order fuel value th_sep dec_pos th_pos
     = Raise (ValidationError FloatConverter.msg_left_of)
  \/ FloatConverter.check_order fuel value th_sep dec_pos th_pos = OutOfFuel.
Proof.
  revert th_pos. induction fuel as [|fuel IH]; intros th_pos;
    cbn [FloatConverter.check_order];
    destruct (th_pos =? -1); auto.
  destruct (dec_pos <? th_pos); auto.
Qed.

Lemma float_of_string_outcomes s :
  (exists f, Py.float_of_string s = Ok f)
  \/ Py.float_of_string s = Raise ValueError.
Proof.
  unfold Py.float_of_string.
  destruct (Py.split_sign (Py.strip s)) as [neg body].
  destruct (_ || _)%bool; [eauto|].
  destruct (String.eqb _ _); [eauto|].
  destruct (Py.parse_decimal body) as [[m e]|]; eauto.
Qed.

(** X7: With both separators in the locale dictionary,
    [FloatConverter.from_string] answers a text with a float or with a
    [ValidationError] carrying one of its three messages: no other
    exception comes out, and its loop always ends. *)
Theorem float_from_string_outcomes
    (self : FloatConverter.t) (value th dec : string) :
  thousands_sep (FloatConverter._locale_dictionary self) = Some th ->
  decimal_point (FloatConverter._locale_dictionary self) = Some dec ->
  (exists f, FloatConverter.from_string self (VStr value) [] = Ok (VFloat f))
  \/ (exists msg,
        FloatConverter.from_string self (VStr value) []
        = Raise (ValidationError msg)
        /\ (msg = FloatConverter.msg_more_than_one dec value
            \/ msg = FloatConverter.msg_left_of
            \/ msg = FloatConverter.msg_number)).
Proof.
  intros Hth Hdec.
  cbn [FloatConverter.from_string no_more_args bind].
  pose proof (from_text_total self value) as Htotal.
  rewrite (from_text_eq _ _ _ _ Hth Hdec) in *. cbv zeta in *.
  set (th_sep := effective_th_sep th) in *.
  assert (Hparse :
    (exists f,
       (do f <- except_ValueError
                  (Py.float_of_string
                     (FloatConverter.normalise th_sep dec value))
                  (ValidationError FloatConverter.msg_number);
        Ok (VFloat f)) = Ok (VFloat f))
    \/ (do f <- except_ValueError
                  (Py.float_of_string
                     (FloatConverter.normalise th_sep dec value))
                  (ValidationError FloatConverter.msg_number);
        Ok (VFloat f)) = Raise (ValidationError FloatConverter.msg_number)).
  { destruct (float_of_string_outcomes
                (FloatConverter.normalise th_sep dec value)) as [[f ->] | ->];
      [left; by exists f | by right]. }
  assert (Hfinish :
    (exists f,
       (do _ <- Ok tt;
        do f <- except_ValueError
                  (Py.float_of_string
                     (FloatConverter.normalise th_sep dec value))
                  (ValidationError FloatConverter.msg_number);
        Ok (VFloat f)) = Ok (VFloat f))
    \/ (exists msg,
          (do _ <- Ok tt;
           do f <- except_ValueError
                     (Py.float_of_string
                        (FloatConverter.normalise th_sep dec value))
                     (ValidationError FloatConverter.msg_number);
           Ok (VFloat f)) = Raise (ValidationError msg)
          /\ (msg = FloatConverter.msg_more_than_one dec value
              \/ msg = FloatConverter.msg_left_of
              \/ msg = FloatConverter.msg_number))).
  { cbn [bind]. destruct Hparse as [? | ->]; [by left | right]. eauto. }
  destruct (_ || _)%bool; [|exact Hfinish].
  destruct (1 <? _); [right; eauto|].
  destruct (Z.ltb_spec 0 (Py.count value th_sep)) as [Ht | Ht];
    [|exact Hfinish].
  destruct (Z.ltb_spec 0 (Py.count value dec)) as [Hd | Hd];
    [|exact Hfinish].
  cbn [andb] in *.
  destruct (count_occurs _ _ Hd) as [q Hq].
  destruct (index_first _ _ _ Hq) as (dec_pos & Hidx & _).
  rewrite Hidx in *. cbn [bind] in Htotal |- *.
  destruct (check_order_outcomes value th_sep dec_pos
              (S (String.length value)) (Py.find value th_sep 0))
    as [E | [E | E]]; rewrite E in *.
  - exact Hfinish.
  - right. eauto.
  - done.
Qed.

Lemma float_from_string_outcomes_witness :
  (exists f,
     FloatConverter.from_string (FloatConverter.init (plain_host lc_dollar))
       (VStr "12x") [] = Ok (VFloat f))
  \/ (exists msg,
        FloatConverter.from_string (FloatConverter.init (plain_host lc_dollar))
          (VStr "12x") [] = Raise (ValidationError msg)
        /\ (msg = FloatConverter.msg_more_than_one "." "12x"
            \/ msg = FloatConverter.msg_left_of
            \/ msg = FloatConverter.msg_number)).
Proof.
  apply (float_from_string_outcomes
           (FloatConverter.init (plain_host lc_dollar)) "12x" "," ".");
    reflexivity.
Defined.

Lemma replace_absent s sub new :
  Py.count s sub = 0 -> Py.replace s sub new = s.
Proof.
  unfold Py.count, Py.replace. destruct sub as [|a sub'].
  { pose proof (len_nonneg s). lia. }
  induction s as [|c s IH]; [reflexivity|].
  cbn [Py.count_skip Py.replace_skip].
  destruct (Py.startswith (String c s) (String a sub')).
  - pose proof (count_skip_nonneg (String.length (String a sub') - 1)
                  (String a sub') s). lia.
  - intros H. by rewrite (IH H).
Qed.

(** X8: A text in which neither separator occurs is handed to [float] as it
    is. *)
Theorem float_from_string_plain_text
    (self : FloatConverter.t) (value th dec : string) :
  thousands_sep (FloatConverter._locale_dictionary self) = Some th ->
  decimal_point (FloatConverter._locale_dictionary self) = Some dec ->
  Py.count value (effective_th_sep th) = 0 -> Py.count value dec = 0 ->
  FloatConverter.from_string self (VStr value) []
  = do f <- except_ValueError (Py.float_of_string value)
              (ValidationError FloatConverter.msg_number);
    Ok (VFloat f).
Proof.
  intros Hth Hdec Ht Hd.
  cbn [FloatConverter.from_string no_more_args bind].
  rewrite (from_text_eq _ _ _ _ Hth Hdec). cbv zeta.
  rewrite Ht, Hd. cbn [Z.ltb Z.compare orb bind].
  unfold FloatConverter.normalise.
  by rewrite (replace_absent value _ "" Ht), (replace_absent value _ "." Hd).
Qed.

Lemma float_from_string_plain_text_witness :
  FloatConverter.from_string (FloatConverter.init (plain_host lc_dollar))
    (VStr " -25e-1 ") [] = Ok (VFloat (Prim2SF (-2.5)%float)).
Proof.
  rewrite (float_from_string_plain_text
             (FloatConverter.init (plain_host lc_dollar)) " -25e-1 " "," "."
             eq_refl eq_refl eq_refl eq_refl).
  reflexivity.
Defined.

(** ** format_price: the symbol, the decimals, the groups *)

Lemma price_text_symbol cv precedes separated sign value grouped :
  price_text cv (precedes, separated, sign) value true grouped
  = do text <- price_text cv (precedes, separated, sign) value false grouped;
    Ok (with_symbol cv precedes separated text).
Proof.
  unfold price_text, with_symbol.
  match goal with |- bind ?d _ = _ => destruct d as [decimals|e|] end;
    cbn [bind]; [|reflexivity..].
  rewrite andb_true_r, andb_false_r.
  by destruct (String.eqb (cv_currency_symbol cv) "").
Qed.

Lemma format_price_symbol h fuel value :
  format_price h fuel value true
  = do text <- format_price h fuel value false;
    Ok (with_symbol (conventions_of h)
          (fst (fst (sign_set (conventions_of h) value)))
          (snd (fst (sign_set (conventions_of h) value))) text).
Proof.
  rewrite !format_price_steps. cbv zeta. fold (sign_set (conventions_of h) value).
  destruct (sign_set (conventions_of h) value) as [[precedes separated] sign].
  cbn [fst snd].
  destruct (number_abs_int value) as [n|e|]; [|reflexivity..]. cbn [bind].
  destruct (group_loop _ _ _ _ _) as [parts|e|]; [|reflexivity..]. cbn [bind].
  apply price_text_symbol.
Qed.

(** X9: The text with the currency symbol is the text without it, with the
    symbol put in front or behind, with or without a space, as the flags
    of the set chosen for the value say; a locale without currency symbol
    gives the same text either way. *)
Theorem format_price_symbol_around_text (h : host) (fuel : nat)
    (value : number) :
  format_price h fuel value true
  = (do text <- format_price h fuel value false;
     Ok (with_symbol (conventions_of h)
           (fst (fst (sign_set (conventions_of h) value)))
           (snd (fst (sign_set (conventions_of h) value))) text))
  /\ (default "" (currency_symbol (h_localeconv h)) = "" ->
      format_price h fuel value true = format_price h fuel value false).
Proof.
  split; [apply format_price_symbol|].
  intros Hcur. rewrite format_price_symbol.
  destruct (format_price h fuel value false) as [text|e|]; [|reflexivity..].
  cbn [bind]. unfold with_symbol, conventions_of. cbn [cv_currency_symbol].
  by rewrite Hcur.
Qed.

Lemma format_price_symbol_around_text_witness :
  format_price (plain_host lc_C) 9 (NInt 1234567) true
  = format_price (plain_host lc_C) 9 (NInt 1234567) false
  /\ format_price (plain_host lc_ungrouped) 9 (NInt (-1234567)) true
     = Ok "-1234567 EUR".
Proof.
  split.
  - apply (proj2 (format_price_symbol_around_text (plain_host lc_C) 9
                    (NInt 1234567))).
    reflexivity.
  - rewrite (proj1 (format_price_symbol_around_text (plain_host lc_ungrouped)
                      9 (NInt (-1234567)))).
    reflexivity.
Defined.

(** X10: Under the monetary locale [pt_BR] the currency symbol stands
    directly in front of the text, for positive and other values alike,
    whatever flags the locale reports. *)
Theorem format_price_pt_BR (h : host) (fuel : nat) (value : number) :
  h_monetary_locale h = Some "pt_BR" ->
  format_price h fuel value true
  = do text <- format_price h fuel value false;
    Ok (default "" (currency_symbol (h_localeconv h)) ++ text).
Proof.
  intros Hloc. rewrite format_price_symbol.
  destruct (format_price h fuel value false) as [text|e|]; [|reflexivity..].
  cbn [bind]. f_equal.
  unfold sign_set, with_symbol, conventions_of. rewrite Hloc.
  cbn [cv_positive cv_negative cv_currency_symbol].
  change (String.eqb "pt_BR" "pt_BR") with true. cbv iota.
  destruct (number_is_positive value); cbn [fst snd];
    change (truthy 1) with true; change (truthy 0) with false; cbv iota;
    by destruct (String.eqb_spec (default "" (currency_symbol (h_localeconv h)))
                   "") as [-> | _].
Qed.

Lemma format_price_pt_BR_witness :
  format_price (pt_BR_host lc_ungrouped) 9 (NInt (-1234567)) true
  = Ok "EUR-1234567".
Proof.
  rewrite (format_price_pt_BR (pt_BR_host lc_ungrouped) 9 (NInt (-1234567))
             eq_refl).
  reflexivity.
Defined.

(** X11: A whole value, integer or float, gets neither decimal point nor
    decimals, whatever [frac_digits] is: without the symbol its text is
    the sign and the grouped digits. *)
Theorem format_price_whole_value (h : host) (fuel : nat) (value : number) :
  number_has_fraction value = false ->
  format_price h fuel value false
  = do n <- number_abs_int value;
    do intparts <- group_loop fuel (fst (first_group h))
                     (snd (first_group h)) [] (Py.str_of_Z n);
    Ok (snd (sign_set (conventions_of h) value)
        ++ Py.join (cv_thousands_sep (conventions_of h)) intparts).
Proof.
  intros Hwhole. rewrite format_price_steps. cbv zeta.
  fold (sign_set (conventions_of h) value).
  destruct (sign_set (conventions_of h) value) as [[precedes separated] sign].
  destruct (number_abs_int value) as [n|e|]; [|reflexivity..]. cbn [bind].
  destruct (group_loop _ _ _ _ _) as [parts|e|]; [|reflexivity..]. cbn [bind].
  unfold price_text. rewrite andb_false_r.
  destruct value as [z|f]; cbn [number_has_fraction] in Hwhole;
    rewrite ?Hwhole; cbn [bind snd]; by rewrite string_app_nil_r.
Qed.

Lemma format_price_whole_value_witness :
  format_price (plain_host lc_dollar) 5 (NFloat (Prim2SF 1234%float)) false
  = Ok "1,234".
Proof.
  rewrite (format_price_whole_value (plain_host lc_dollar) 5
             (NFloat (Prim2SF 1234%float)) eq_refl).
  reflexivity.
Defined.

Lemma slice_from_zero s : Py.slice_from s (- 0) = s.
Proof.
  unfold Py.slice_from.
  assert (Z.to_nat (Py.slice_bound (Py.len s) (- 0)) = 0%nat) as ->;
    [|reflexivity].
  unfold Py.slice_bound. pose proof (len_nonneg s).
  change (- 0 <? 0) with false. cbv iota. lia.
Qed.

(** X12: When the locale has no decimals for money ([frac_digits] 0), a float
    with a fraction still gets a decimal point, followed by the whole
    ['%.0f'] text of the value: [s[-0:]] is all of [s]. *)
Theorem format_price_no_frac_digits (h : host) (fuel : nat) (f : spec_float) :
  frac_digits (h_localeconv h) = Some 0 ->
  Py.float_has_fraction f = true ->
  format_price h fuel (NFloat f) false
  = do n <- number_abs_int (NFloat f);
    do intparts <- group_loop fuel (fst (first_group h))
                     (snd (first_group h)) [] (Py.str_of_Z n);
    Ok (snd (sign_set (conventions_of h) (NFloat f))
        ++ Py.join (cv_thousands_sep (conventions_of h)) intparts
        ++ cv_decimal_point (conventions_of h) ++ Py.percent_f 0 f).
Proof.
  intros Hfd Hfrac. rewrite format_price_steps. cbv zeta.
  fold (sign_set (conventions_of h) (NFloat f)).
  destruct (sign_set (conventions_of h) (NFloat f))
    as [[precedes separated] sign].
  destruct (number_abs_int (NFloat f)) as [n|e|]; [|reflexivity..].
  cbn [bind].
  destruct (group_loop _ _ _ _ _) as [parts|e|]; [|reflexivity..]. cbn [bind].
  unfold price_text. rewrite andb_false_r, Hfrac.
  assert (cv_frac_digits (conventions_of h) = 0) as ->.
  { unfold conventions_of. cbn [cv_frac_digits]. by rewrite Hfd. }
  cbn [Z.ltb Z.compare bind snd]. by rewrite slice_from_zero.
Qed.

Lemma format_price_no_frac_digits_witness :
  format_price (plain_host lc_no_decimals) 5 (NFloat (Prim2SF 1234.5%float))
    false = Ok "1,234.1234".
Proof.
  rewrite (format_price_no_frac_digits (plain_host lc_no_decimals) 5
             (Prim2SF 1234.5%float) eq_refl eq_refl).
  reflexivity.
Defined.

Lemma Forall_nonneg_nil : Forall (fun g : Z => 0 <= g) [].
Proof. constructor. Qed.

(** X13: A locale without grouping pattern (the key absent, or an empty list,
    as in the C locale) still gets its digits in groups of three. *)
Theorem format_price_default_groups (h : host) (fuel : nat) (value : number)
    (symbol : bool) (n : Z) :
  default [] (mon_grouping (h_localeconv h)) = [] ->
  number_abs_int value = Ok n ->
  (String.length (Py.str_of_Z n) < fuel)%nat ->
  format_price h fuel value symbol
  = price_text (conventions_of h) (sign_set (conventions_of h) value)
      value symbol
      (grouped_text (cv_thousands_sep (conventions_of h)) 3 []
         (Py.str_of_Z n)).
Proof.
  intros Hg Hn Hfuel. rewrite format_price_steps. cbv zeta.
  rewrite Hn. cbn [bind].
  assert (first_group h = (3, rev [])) as ->
    by (unfold first_group; by rewrite Hg).
  cbn [fst snd].
  destruct (group_loop_grouped 3 [] ltac:(lia) Forall_nonneg_nil fuel
              (cv_thousands_sep (conventions_of h)) (Py.str_of_Z n) Hfuel)
    as (intparts & -> & <-).
  reflexivity.
Qed.

Lemma format_price_default_groups_witness :
  format_price (plain_host lc_C) 8 (NInt 1234567) false
  = Ok (grouped_text "" 3 [] "1234567")
  /\ grouped_text "." 3 [] "1234567" = "1.234.567".
Proof.
  split; [|reflexivity].
  rewrite (format_price_default_groups (plain_host lc_C) 8 (NInt 1234567)
             false 1234567 eq_refl eq_refl ltac:(cbn; lia)).
  reflexivity.
Defined.

Lemma str_of_N_nonempty n : Py.str_of_N n <> "".
Proof. apply string_of_uint_nonempty, to_uint_nonnil. Qed.

Lemma str_of_Z_nonempty z : Py.str_of_Z z <> "".
Proof.
  destruct z; unfold Py.str_of_Z; [apply str_of_N_nonempty..|done].
Qed.

Lemma group_loop_size_zero fuel groups digits :
  digits <> "" -> (2 <= fuel)%nat ->
  group_loop fuel 0 groups [] digits = Ok [digits].
Proof.
  intros Hne Hfuel. destruct fuel as [|[|fuel]]; [lia..|].
  destruct digits as [|c s]; [done|].
  cbn [group_loop]. rewrite slice_from_zero.
  assert (Py.slice_to (String c s) (- 0) = "") as ->.
  { unfold Py.slice_to.
    assert (Z.to_nat (Py.slice_bound (Py.len (String c s)) (- 0)) = 0%nat)
      as ->; [|reflexivity].
    unfold Py.slice_bound. pose proof (len_nonneg (String c s)).
    change (- 0 <? 0) with false. cbv iota. lia. }
  by destruct (list_pop groups) as [[last groups']|].
Qed.

(** X14: A grouping pattern that begins with size [0] switches grouping off:
    the digits stay in one piece, whatever follows in the pattern and
    whatever the separator. *)
Theorem format_price_zero_first_size (h : host) (fuel : nat)
    (value : number) (symbol : bool) (rest : list Z) (n : Z) :
  mon_grouping (h_localeconv h) = Some (0 :: rest) ->
  number_abs_int value = Ok n ->
  (2 <= fuel)%nat ->
  format_price h fuel value symbol
  = price_text (conventions_of h) (sign_set (conventions_of h) value)
      value symbol (Py.str_of_Z n).
Proof.
  intros Hg Hn Hfuel. rewrite format_price_steps. cbv zeta.
  rewrite Hn. cbn [bind].
  assert (first_group h = (0, rev rest)) as ->
    by (unfold first_group; by rewrite Hg).
  cbn [fst snd].
  by rewrite (group_loop_size_zero fuel (rev rest) _ (str_of_Z_nonempty n) Hfuel).
Qed.

Lemma format_price_zero_first_size_witness :
  format_price (plain_host lc_ungrouped) 2 (NInt 1234567) true
  = Ok "1234567 EUR".
Proof.
  rewrite (format_price_zero_first_size (plain_host lc_ungrouped) 2
             (NInt 1234567) true [3] 1234567 eq_refl eq_refl ltac:(lia)).
  reflexivity.
Defined.

Lemma string_of_list_ascii_app (a b : list ascii) :
  string_of_list_ascii (a ++ b)
  = string_of_list_ascii a ++ string_of_list_ascii b.
Proof.
  induction a as [|c a IH]; [reflexivity|].
  cbn [app string_of_list_ascii]. by rewrite string_app_cons, IH.
Qed.

Lemma join_empty_sep (ls : list (list ascii)) :
  Py.join "" (map string_of_list_ascii ls)
  = string_of_list_ascii (List.concat ls).
Proof.
  unfold Py.join. induction ls as [|x ls IH]; [reflexivity|].
  cbn [map List.concat]. rewrite string_of_list_ascii_app, <- IH.
  destruct ls as [|y ls]; [cbn; by rewrite string_app_nil_r | reflexivity].
Qed.

Lemma group_string_nonempty g : g <> [] -> group_string g <> "".
Proof.
  unfold group_string. intros Hg H.
  apply (f_equal list_ascii_of_string) in H.
  rewrite list_ascii_of_string_of_list_ascii in H.
  apply (f_equal (@rev ascii)) in H. rewrite rev_involutive in H. done.
Qed.

Section GroupsKeepDigits.

Variables (g0 : Z) (rest : list Z).
Hypothesis g0_pos : 0 < g0.
Hypothesis rest_nonneg : Forall (fun g => 0 <= g) rest.

Lemma cut_from_right_nonempty fuel i rdigits :
  Forall (fun g => g <> []) (cut_from_right fuel g0 rest i rdigits).
Proof.
  revert i rdigits. induction fuel as [|fuel IH]; intros i rdigits.
  - destruct rdigits; repeat constructor; done.
  - destruct rdigits as [|c r]; [constructor|].
    rewrite (cut_from_right_cons g0 rest fuel i (c :: r)) by done.
    constructor; [|apply IH].
    pose proof (group_size_pos g0 rest g0_pos rest_nonneg i).
    destruct (Z.to_nat (group_size g0 rest i)) eqn:E; [lia | done].
Qed.

Lemma cut_from_right_concat fuel i rdigits :
  (List.length rdigits <= fuel)%nat ->
  List.concat (rev (map (@rev ascii) (cut_from_right fuel g0 rest i rdigits)))
  = rev rdigits.
Proof.
  revert i rdigits. induction fuel as [|fuel IH]; intros i rdigits Hlen.
  - destruct rdigits; [reflexivity | cbn in Hlen; lia].
  - destruct rdigits as [|c r]; [reflexivity|].
    rewrite (cut_from_right_cons g0 rest fuel i (c :: r)) by done.
    set (n := Z.to_nat (group_size g0 rest i)).
    pose proof (group_size_pos g0 rest g0_pos rest_nonneg i).
    cbn [map rev]. rewrite concat_app. cbn [List.concat].
    rewrite app_nil_r, IH.
    + by rewrite <- rev_app_distr, firstn_skipn.
    + rewrite length_skipn. cbn [List.length] in *. lia.
Qed.

(** The parts the loop returns are the digits, cut: none is empty and
    put together again they are the digit text. *)
Lemma group_loop_keeps_digits fuel digits :
  (String.length digits < fuel)%nat ->
  exists intparts,
    group_loop fuel g0 (rev rest) [] digits = Ok intparts
    /\ Py.join "" intparts = digits
    /\ Forall (fun part => part <> "") intparts.
Proof.
  intros Hfuel. destruct fuel as [|fuel]; [lia|].
  eexists. split; [|split].
  - apply (group_loop_cut g0 rest g0_pos rest_nonneg fuel 0 [] digits). lia.
  - rewrite app_nil_r.
    assert (Hm : forall l, map group_string l
                           = map string_of_list_ascii (map (@rev ascii) l))
      by (intros l; by rewrite List.map_map).
    rewrite Hm, <- List.map_rev, join_empty_sep, cut_from_right_concat.
    + by rewrite rev_involutive, string_of_list_ascii_of_string.
    + rewrite length_rev, chars_length. lia.
  - rewrite app_nil_r. apply List.Forall_rev, List.Forall_map.
    apply (List.Forall_impl _ group_string_nonempty).
    apply cut_from_right_nonempty.
Qed.

End GroupsKeepDigits.

(** X15: Grouping loses and adds no digit: under a pattern with a positive
    first size and no negative size, the integer part of the text is made
    of non-empty parts joined by the thousands separator, and the parts
    put together without separator are the digits of the integer part of
    the magnitude. *)
Theorem format_price_keeps_digits (h : host) (fuel : nat) (value : number)
    (symbol : bool) (g0 : Z) (rest : list Z) (n : Z) :
  mon_grouping (h_localeconv h) = Some (g0 :: rest) ->
  0 < g0 -> Forall (fun g => 0 <= g) rest ->
  number_abs_int value = Ok n ->
  (String.length (Py.str_of_Z n) < fuel)%nat ->
  exists intparts,
    format_price h fuel value symbol
    = price_text (conventions_of h) (sign_set (conventions_of h) value)
        value symbol
        (Py.join (cv_thousands_sep (conventions_of h)) intparts)
    /\ Py.join "" intparts = Py.str_of_Z n
    /\ Forall (fun part => part <> "") intparts.
Proof.
  intros Hg Hpos Hrest Hn Hfuel.
  destruct (group_loop_keeps_digits g0 rest Hpos Hrest fuel (Py.str_of_Z n)
              Hfuel) as (intparts & Hloop & Hjoin & Hparts).
  exists intparts. split; [|by split].
  rewrite format_price_steps. cbv zeta. rewrite Hn. cbn [bind].
  assert (first_group h = (g0, rev rest)) as ->
    by (unfold first_group; by rewrite Hg).
  cbn [fst snd]. by rewrite Hloop.
Qed.

Lemma format_price_keeps_digits_witness :
  exists intparts,
    format_price (plain_host lc_dollar) 8 (NInt (-1234567)) false
    = Ok ("-" ++ Py.join "," intparts)
    /\ Py.join "" intparts = "1234567".
Proof.
  destruct (format_price_keeps_digits (plain_host lc_dollar) 8
              (NInt (-1234567)) false 3 [0] 1234567 eq_refl ltac:(lia)
              ltac:(repeat constructor; lia) eq_refl ltac:(cbn; lia))
    as (intparts & Hfmt & Hjoin & _).
  exists intparts. split; [|exact Hjoin].
  rewrite Hfmt. unfold price_text. cbn. by rewrite string_app_nil_r.
Defined.
